(** * runlighthouse.js: the Lighthouse CI command-line trigger

    A shallow embedding of [src/runlighthouse.js] and the properties of its
    configuration resolution ([getConfig]) and dispatch ([run]).

    Conventions of the embedding.
    - A JavaScript value is a [value]; a JavaScript number is an IEEE 754
      binary64 datum, [SpecFloat.spec_float] (the file only ever tests
      numbers for being zero or NaN, and builds them from integers).
    - A JavaScript string is a [string] whose characters are the code units
      below 256.
    - [process.env] is a finite map from names to strings.
    - [console.log], [fetch] and [process.exit] are recorded: a computation
      returns the list of events it emitted, in order, and either a value
      or the exit code [process.exit] was called with.
    - [minimist], [node-fetch] and the conversions between strings and
      numbers belong to the runtime, not to this repository: the program
      is modelled from the object [minimist] returns, the settled outcome
      of [fetch] is an input, and the two conversions are the fields of
      the class [JsRuntime].
    - An object is plain data, as [minimist] and [JSON.parse] build it:
      its prototype is Object.prototype and none of its properties is
      callable. Converting such an object to a string or to a number
      raises a TypeError when it has a property of its own called
      toString (as the score of [--score.toString=1] has), because that
      property hides the inherited method; an exception that nothing
      catches ends the process with exit code 1. *)

From Stdlib Require Import ZArith Ascii String List Bool.
From Stdlib Require Import SpecFloat.
From stdpp Require Import base option strings gmap pretty.

Set Warnings "-register-all".

Local Open Scope string_scope.
Local Open Scope list_scope.
Local Open Scope Z_scope.

(** ** JavaScript values *)

Definition js_number : Type := spec_float.

Definition NaN : js_number := S754_nan.

(** The number value of a mathematical integer (round to nearest, ties to
    even, overflow to infinity); a zero keeps the sign that is asked for. *)
Definition number_of_Z (negative_zero : bool) (z : Z) : js_number :=
  binary_normalize 53 1024 z 0 negative_zero.

(** An array has its elements and, like any object, may have named
    properties of its own; [JSON.parse] gives it none, and [minimist]
    gives it one when a dotted option follows a repeated one. Where
    [minimist] finds an inherited method under the name of a dotted
    option it keeps the method in an array with the value given
    ([--score.toString=1] makes the score { toString: [method, 1] });
    the program can do no more with such a function than serialize it,
    which JSON.stringify does as it does for undefined, and [VUndefined]
    stands for it. *)
Inductive value : Type :=
| VUndefined
| VNull
| VBool (b : bool)
| VNum (n : js_number)
| VStr (s : string)
| VArr (elems : list value) (props : list (string * value))
| VObj (props : list (string * value)).

(** ToBoolean. *)
Definition number_truthy (n : js_number) : bool :=
  match n with
  | S754_zero _ | S754_nan => false
  | _ => true
  end.

Definition truthy (v : value) : bool :=
  match v with
  | VUndefined | VNull => false
  | VBool b => b
  | VNum n => number_truthy n
  | VStr s => negb (String.eqb s "")
  | VArr _ _ | VObj _ => true
  end.

(** [a || b], [a && b] and [v === 'literal']. *)
Definition js_or (a b : value) : value := if truthy a then a else b.
Definition js_and (a b : value) : value := if truthy a then b else a.

Definition strict_eq_str (v : value) (s : string) : bool :=
  match v with
  | VStr t => String.eqb t s
  | _ => false
  end.

(** [Array.prototype.includes] on an array of strings (SameValueZero). *)
Definition includes (l : list string) (v : value) : bool :=
  existsb (strict_eq_str v) l.

(** The conversions the JavaScript runtime supplies. *)
Class JsRuntime : Type := {
  (** StringToNumber of ECMAScript, the string case of [Number(v)] *)
  StringToNumber : string -> js_number;
  (** Number::toString in radix 10 *)
  NumberToString : js_number -> string
}.

Fixpoint join (sep : string) (l : list string) : string :=
  match l with
  | [] => ""
  | [s] => s
  | s :: rest => s +:+ sep +:+ join sep rest
  end.

(** The value of the property [key] in a property list, if there is one. *)
Fixpoint assoc (key : string) (props : list (string * value)) : option value :=
  match props with
  | [] => None
  | (k, v) :: rest => if String.eqb k key then Some v else assoc key rest
  end.

Section Conversions.
Context {rt : JsRuntime}.

(** ToString, where [None] is the TypeError it raises. An object or an
    array goes through ToPrimitive: a toString property of its own is not
    callable and is passed over, valueOf (its own, not callable, or the
    inherited one, which returns the object) gives no primitive either,
    and the TypeError follows. Without such a property the inherited
    toString answers: for an object with its tag; for an array with its
    elements joined by commas, undefined and null elements giving the
    empty string, which raises when an element does, or with its tag
    when a join property of its own hides the method that joins. *)
Fixpoint ToString (v : value) : option string :=
  match v with
  | VUndefined => Some "undefined"
  | VNull => Some "null"
  | VBool true => Some "true"
  | VBool false => Some "false"
  | VNum n => Some (NumberToString n)
  | VStr s => Some s
  | VArr elems props =>
      match assoc "toString" props, assoc "join" props with
      | Some _, _ => None
      | None, Some _ => Some "[object Array]"
      | None, None =>
      match
        (fix texts (l : list value) : option (list string) :=
           match l with
           | [] => Some []
           | e :: rest =>
               match (match e with
                      | VUndefined | VNull => Some ""
                      | _ => ToString e
                      end), texts rest with
               | Some s, Some ss => Some (s :: ss)
               | _, _ => None
               end
           end) elems
      with
      | Some pieces => Some (join "," pieces)
      | None => None
      end
      end
  | VObj props =>
      match assoc "toString" props with
      | Some _ => None
      | None => Some "[object Object]"
      end
  end.

(** [Number(v)], that is ToNumber, where [None] is the TypeError: an
    array or an object is converted to a primitive first, which for a
    plain object ends in toString as above. *)
Definition Number (v : value) : option js_number :=
  match v with
  | VUndefined => Some NaN
  | VNull => Some (S754_zero false)
  | VBool true => Some (number_of_Z false 1)
  | VBool false => Some (S754_zero false)
  | VNum n => Some n
  | VStr s => Some (StringToNumber s)
  | VArr _ _ | VObj _ =>
      match ToString v with
      | Some s => Some (StringToNumber s)
      | None => None
      end
  end.
End Conversions.

(** Property read [v.key] for the keys this program reads ([score], [data],
    [target_url]): [None] is the TypeError raised on undefined and null;
    a boolean, a number or a string has no such property, and an array
    has it only among its named properties. *)
Definition get_prop (v : value) (key : string) : option value :=
  match v with
  | VUndefined | VNull => None
  | VObj props | VArr _ props => Some (default VUndefined (assoc key props))
  | _ => Some VUndefined
  end.

(** ** Built-in functions the program calls *)

(** [String.prototype.split] with a one-character separator. *)
Fixpoint split (sep : ascii) (s : string) : list string :=
  match s with
  | EmptyString => [""]
  | String c rest =>
      if Ascii.eqb c sep then "" :: split sep rest
      else match split sep rest with
           | piece :: pieces => String c piece :: pieces
           | [] => [String c ""]
           end
  end.

(** [array[i]]: undefined past the end. *)
Definition index (l : list value) (i : nat) : value := nth i l VUndefined.

(** White space of StrWhiteSpaceChar among the code units below 256:
    TAB, LF, VT, FF, CR, SP and NBSP. *)
Definition isStrWhiteSpaceChar (c : ascii) : bool :=
  existsb (Ascii.eqb c) ["009"; "010"; "011"; "012"; "013"; " "; "160"]%char.

Fixpoint trimStart (s : string) : string :=
  match s with
  | String c rest => if isStrWhiteSpaceChar c then trimStart rest else s
  | EmptyString => s
  end.

Definition digit (c : ascii) : option Z :=
  let n := Z.of_N (N_of_ascii c) - 48 in
  if (0 <=? n) && (n <=? 9) then Some n else None.

(** The mathematical value of the longest prefix of decimal digits;
    [acc] is [None] until a digit has been read. *)
Fixpoint digits (s : string) (acc : option Z) : option Z :=
  match s with
  | String c rest =>
      match digit c with
      | Some d => digits rest (Some (10 * default 0 acc + d))
      | None => acc
      end
  | EmptyString => acc
  end.

(** Escapes of QuoteJSONString for a code unit below 256. *)
Definition hex_digit (n : N) : ascii :=
  ascii_of_N (if (n <? 10)%N then 48 + n else 87 + n)%N.

Definition escape (c : ascii) : string :=
  let n := N_of_ascii c in
  if Ascii.eqb c "034" then String "\" (String "034" "")
  else if Ascii.eqb c "\" then "\\"
  else if Ascii.eqb c "008" then "\b"
  else if Ascii.eqb c "012" then "\f"
  else if Ascii.eqb c "010" then "\n"
  else if Ascii.eqb c "013" then "\r"
  else if Ascii.eqb c "009" then "\t"
  else if (n <? 32)%N then
    "\u00" +:+ String (hex_digit (n / 16)) (String (hex_digit (n mod 16)) "")
  else String c "".

Fixpoint escape_all (s : string) : string :=
  match s with
  | String c rest => escape c +:+ escape_all rest
  | EmptyString => ""
  end.

Definition dq : string := String "034" "".

Definition QuoteJSONString (s : string) : string := dq +:+ escape_all s +:+ dq.

Definition finite (n : js_number) : bool :=
  match n with
  | S754_zero _ | S754_finite _ _ _ => true
  | S754_infinity _ | S754_nan => false
  end.

Section Builtins.
Context {rt : JsRuntime}.

(** [parseInt(s, 10)] of a text: leading white space and a sign are
    skipped, the digits that follow are read, and NaN is returned when
    there are none. *)
Definition parse_integer (s : string) : js_number :=
  let s := trimStart s in
  let '(negative, s) :=
    match s with
    | String "-" rest => (true, rest)
    | String "+" rest => (false, rest)
    | _ => (false, s)
    end in
  match digits s None with
  | None => NaN
  | Some z => number_of_Z negative (if negative then - z else z)
  end.

(** [parseInt(v, 10)] for the values the program passes to it, those of
    [process.env]: a string, or undefined, which is read as the text
    undefined. (On a value whose ToString raises, parseInt raises too;
    no such value is in the environment, and the NaN of that case is
    never produced.) *)
Definition parseInt (v : value) : js_number :=
  match ToString v with
  | Some s => parse_integer s
  | None => NaN
  end.

(** SerializeJSONProperty: [None] is the undefined result, which an
    object omits and an array prints as null. Of an array only the
    elements are written, not its named properties. *)
Fixpoint SerializeJSONProperty (v : value) : option string :=
  match v with
  | VUndefined => None
  | VNull => Some "null"
  | VBool true => Some "true"
  | VBool false => Some "false"
  | VNum n => Some (if finite n then NumberToString n else "null")
  | VStr s => Some (QuoteJSONString s)
  | VArr elems _ =>
      Some ("[" +:+ join "," (List.map (fun e => default "null" (SerializeJSONProperty e)) elems)
                +:+ "]")
  | VObj props =>
      let member (p : string * value) : list string :=
        match SerializeJSONProperty (snd p) with
        | Some s => [QuoteJSONString (fst p) +:+ ":" +:+ s]
        | None => []
        end in
      Some ("{" +:+ join "," (List.flat_map member props) +:+ "}")
  end.

Definition JSON_stringify (v : value) : value :=
  match SerializeJSONProperty v with
  | Some s => VStr s
  | None => VUndefined
  end.
End Builtins.

(** [Object.assign(target, source)] on property lists: a property of the
    source replaces the target's in place, or is added at the end. *)
Fixpoint set_prop (key : string) (v : value) (props : list (string * value))
  : list (string * value) :=
  match props with
  | [] => [(key, v)]
  | (k, w) :: rest =>
      if String.eqb k key then (k, v) :: rest else (k, w) :: set_prop key v rest
  end.

Definition Object_assign (target source : list (string * value))
  : list (string * value) :=
  fold_left (fun acc p => set_prop (fst p) (snd p) acc) source target.

(** ** Effects: console output, the network request, process exit *)

(** What a rejected promise carries into [.catch]. *)
Inductive error : Type :=
| FetchError   (** [fetch] rejected: the transport failed *)
| InvalidJson  (** [resp.json()] rejected: the body is not JSON *)
| TypeError.   (** a property of undefined or null was read, or a
                   conversion to a string or a number raised *)

Inductive logarg : Type :=
| Val (v : value)
| Err (e : error).

Record Request : Type := {
  endpoint : string;
  method : string;
  body : value;
  headers : list (string * value)
}.

(** A response, as far as the program looks at it: what [resp.json()]
    settles to, [None] when the body does not parse. *)
Record Response : Type := { json : option value }.

Inductive event : Type :=
| Log (args : list logarg)
| Fetch (req : Request).

Inductive result (A : Type) : Type :=
| Ret (a : A)
| Exit (code : Z)
| Uncaught (e : error).
Arguments Ret {A} a.
Arguments Exit {A} code.
Arguments Uncaught {A} e.

(** A computation: the events emitted, then a value, [process.exit], or
    an exception that nothing catches. *)
Definition M (A : Type) : Type := list event * result A.

Definition ret {A} (a : A) : M A := ([], Ret a).

Definition bind {A B} (k : A -> M B) (m : M A) : M B :=
  match m with
  | (evs, Ret a) => let '(evs', r) := k a in (evs ++ evs', r)
  | (evs, Exit code) => (evs, Exit code)
  | (evs, Uncaught e) => (evs, Uncaught e)
  end.

#[global] Instance M_ret : MRet M := @ret.
#[global] Instance M_bind : MBind M := @bind.

Definition console_log (args : list logarg) : M unit := ([Log args], Ret tt).
Definition process_exit {A} (code : Z) : M A := ([], Exit code).
Definition throw {A} (e : error) : M A := ([], Uncaught e).
Definition when (b : bool) (m : M unit) : M unit := if b then m else ret tt.

(** A promise that has settled, with what its handlers printed. *)
Definition Promise (A : Type) : Type := list event * (error + A).

Definition promise_then {A B} (p : Promise A) (k : A -> Promise B) : Promise B :=
  match p with
  | (evs, inr a) => let '(evs', r) := k a in (evs ++ evs', r)
  | (evs, inl e) => (evs, inl e)
  end.

(** [.catch(handler)] at the end of the chain, then the event loop runs
    dry: the handler runs on rejection only. *)
Definition promise_catch (p : Promise unit) (handler : error -> M unit) : M unit :=
  match p with
  | (evs, inr tt) => (evs, Ret tt)
  | (evs, inl e) => let '(evs', r) := handler e in (evs ++ evs', r)
  end.

(** The exit code of the process: the argument of [process.exit], 0
    when the program runs to its end, and 1 when an exception is not
    caught. *)
Definition exit_code {A} (m : M A) : Z :=
  match snd m with
  | Ret _ => 0
  | Exit code => code
  | Uncaught _ => 1
  end.

Definition trace {A} (m : M A) : list event := fst m.

Definition is_fetch (e : event) : bool :=
  match e with
  | Fetch _ => true
  | Log _ => false
  end.

(** The requests a computation sent. *)
Definition requests {A} (m : M A) : list Request :=
  flat_map (fun e => match e with Fetch r => [r] | Log _ => [] end) (trace m).

(** ** The program *)

(** What [minimist(args, {boolean: ['comment', 'help', 'pr'],
    default: {comment: true, pr: true}, alias: {help: 'h'}})] returns: the
    three boolean options are booleans, the others are whatever was parsed
    (undefined when the option is not given). *)
Record Argv : Type := {
  argv_positional : list value;   (** [argv._] *)
  argv_help : bool;
  argv_comment : bool;
  argv_pr : bool;
  argv_score : value;
  argv_runner : value
}.

Record PrInfo : Type := { number : value; sha : value }.

Record Repo : Type := { owner : value; name : value }.

Record Config : Type := {
  testUrl : value;
  runLighthouse : value;
  addComment : bool;
  minPassScore : js_number;
  runner : value;
  pr : PrInfo;
  repo : Repo
}.

(** The properties of the configuration object, in the order the source
    assigns them. *)
Definition config_props (c : Config) : list (string * value) :=
  [ ("testUrl", testUrl c);
    ("runLighthouse", runLighthouse c);
    ("addComment", VBool (addComment c));
    ("minPassScore", VNum (minPassScore c));
    ("runner", runner c);
    ("pr", VObj [("number", number (pr c)); ("sha", sha (pr c))]);
    ("repo", VObj [("owner", owner (repo c)); ("name", name (repo c))]) ].

Definition RUNNERS : list (string * string) := [("chrome", "chrome"); ("wpt", "wpt")].
Definition RUNNERS_chrome : string := "chrome".
Definition RUNNERS_wpt : string := "wpt".
Definition Object_keys (o : list (string * string)) : list string := List.map fst o.

Definition usage : string :=
  "Usage:
runLighthouse.js [--score=<score>] [--no-comment] [--pr=<boolean>] [--runner="
  +:+ join "," (Object_keys RUNNERS) +:+ "] <url>

Options:
  --score      Minimum score for the pull request to be considered " +:+ dq +:+ "passing" +:+ dq +:+ ".
               If omitted, merging the PR will be allowed no matter what the score. [Number]

  --no-comment Doesn't post a comment to the PR issue summarizing the Lighthouse results. [Boolean]

  --pr         By default Lighthouse will only run on PR's. To enable Lighthouse on all event
               types set to false to run Lighthouse on all activity [Boolean]

  --runner     Selects Lighthouse running on Chrome or WebPageTest. [--runner="
  +:+ join "," (Object_keys RUNNERS) +:+ "]

  --help       Prints help.

Examples:

  Runs Lighthouse and posts a summary of the results.
    runLighthouse.js https://example.com

  Runs Lighthouse and posts a summary of the results on every test run.
    runLighthouse.js --pr=false https://example.com

  Fails the PR if the score drops below 93. Posts the summary comment.
    runLighthouse.js --score=93 https://example.com

  Runs Lighthouse on WebPageTest. Fails the PR if the score drops below 93.
    runLighthouse.js --score=93 --runner=wpt --no-comment https://example.com".

Definition log_str (s : string) : M unit := console_log [Val (VStr s)].

Definition printUsageAndExit {A} : M A :=
  log_str usage;;
  process_exit 1.

Section Program.
Context {rt : JsRuntime}.
(** [process.env] *)
Variable env : gmap string string.
(** What [fetch] settles to for a request: [None] when it rejects. *)
Variable fetch : Request -> option Response.

Definition process_env (key : string) : value :=
  match env !! key with
  | Some s => VStr s
  | None => VUndefined
  end.

(** [process.env.CI_HOST || 'https://lighthouse-ci.appspot.com']: both
    sides of the || are strings, and so is the constant. *)
Definition CI_HOST : string :=
  match js_or (process_env "CI_HOST") (VStr "https://lighthouse-ci.appspot.com") with
  | VStr host => host
  | _ => "https://lighthouse-ci.appspot.com"
  end.

(** ToNumber and ToString in the main flow, and inside a promise handler. *)
Definition to_number (v : value) : M js_number :=
  match Number v with
  | Some n => mret n
  | None => throw TypeError
  end.

Definition to_string (v : value) : M string :=
  match ToString v with
  | Some s => mret s
  | None => throw TypeError
  end.

Definition to_string_in_handler (v : value) : Promise string :=
  ([], match ToString v with
       | Some s => inr s
       | None => inl TypeError
       end).

Definition API_KEY : value :=
  js_or (process_env "LIGHTHOUSE_API_KEY") (process_env "API_KEY").

Definition getPrInfo : PrInfo :=
  let pr := {| number := VNull; sha := VNull |} in
  (* Setup for Travis *)
  let pr :=
    if truthy (process_env "TRAVIS")
    then {| number := VNum (parseInt (process_env "TRAVIS_PULL_REQUEST"));
            sha := process_env "TRAVIS_PULL_REQUEST_SHA" |}
    else pr in
  (* Setup for Circle CI *)
  let pr :=
    if truthy (process_env "CIRCLECI")
    then {| number := VNum (parseInt (process_env "CIRCLE_PR_NUMBER"));
            sha := process_env "CIRCLE_SHA1" |}
    else pr in
  pr.

(** [repoSlug.split('/')[i]]; an environment value is a string. *)
Definition slug_part (repoSlug : value) (i : nat) : value :=
  match repoSlug with
  | VStr s => index (VStr <$> split "/" s) i
  | _ => VUndefined
  end.

Definition getConfig (argv : Argv) : M Config :=
  when (argv_help argv) printUsageAndExit;;
  let testUrl := index (argv_positional argv) 0 in
  when (negb (truthy testUrl))
    (log_str "Please provide a url to test.";; printUsageAndExit);;
  (* If pr is false, or if pr is true (default) and event type is a pull request *)
  let runLighthouse :=
    js_or (VBool (negb (argv_pr argv)))
      (js_and (VBool (argv_pr argv))
         (js_or (VBool (strict_eq_str (process_env "TRAVIS_EVENT_TYPE") "pull_request"))
                (process_env "CIRCLE_PULL_REQUEST"))) in
  let addComment := argv_comment argv in
  minPassScore ← to_number (argv_score argv);
  when (negb addComment && negb (number_truthy minPassScore))
    (log_str "Please provide a --score when using --no-comment.";; printUsageAndExit);;
  let runner := js_or (argv_runner argv) (VStr RUNNERS_chrome) in
  let possibleRunners := Object_keys RUNNERS in
  when (negb (includes possibleRunners runner))
    (text ← to_string runner;
     log_str ("Unknown runner " +:+ dq +:+ text +:+ dq +:+ ". Options: "
              +:+ join "," possibleRunners);;
     printUsageAndExit);;
  text ← to_string runner;
  log_str ("Using runner: " +:+ text);;
  let pr := getPrInfo in
  let repoSlug :=
    js_or (js_or (process_env "TRAVIS_PULL_REQUEST_SLUG")
                 (process_env "CIRCLE_PULL_REQUEST"))
          (process_env "CIRCLE_REPOSITORY_URL") in
  let repo :=
    {| owner := if truthy repoSlug then slug_part repoSlug 0 else VNull;
       name := if truthy repoSlug then slug_part repoSlug 1 else VNull |} in
  console_log [Val (VStr "ENV:"); Val (process_env "CIRCLE_PROJECT_USERNAME");
               Val (process_env "CIRCLE_PROJECT_REPONAME")];;
  console_log [Val (VStr "Slug:"); Val (owner repo); Val (name repo)];;
  mret {| testUrl := testUrl; runLighthouse := runLighthouse;
          addComment := addComment; minPassScore := minPassScore;
          runner := runner; pr := pr; repo := repo |}.

(** [fetch(endpoint, options)]: the request goes out, the promise settles. *)
Definition do_fetch (req : Request) : Promise Response :=
  ([Fetch req], match fetch req with
                | Some resp => inr resp
                | None => inl FetchError
                end).

Definition resp_json (resp : Response) : Promise value :=
  ([], match json resp with
       | Some v => inr v
       | None => inl InvalidJson
       end).

(** [v.key] inside a promise handler: the TypeError rejects the chain. *)
Definition get (v : value) (key : string) : Promise value :=
  ([], match get_prop v key with
       | Some w => inr w
       | None => inl TypeError
       end).

(** The request [run] hands to [fetch]. *)
Definition request (config : Config) : Request :=
  let body := JSON_stringify (VObj (config_props config)) in
  let '(endpoint, body) :=
    if strict_eq_str (runner config) RUNNERS_wpt
    then (CI_HOST +:+ "/run_on_wpt", body)
    else (* RUNNERS.chrome, same as default *)
         (CI_HOST +:+ "/run_on_chrome",
          JSON_stringify
            (VObj (Object_assign [("format", VStr "json")] (config_props config)))) in
  {| endpoint := endpoint;
     method := "POST";
     body := body;
     headers := [("Content-Type", VStr "application/json"); ("X-API-KEY", API_KEY)] |}.

Definition run (config : Config) : M unit :=
  promise_catch
    (promise_then (promise_then (do_fetch (request config)) resp_json)
       (fun json =>
          if strict_eq_str (runner config) RUNNERS_wpt
          then
            promise_then (get json "data") (fun data =>
            promise_then (get data "target_url") (fun target_url =>
            promise_then (to_string_in_handler target_url) (fun text =>
            ([Log [Val (VStr ("Started Lighthouse run on WebPageTest: " +:+ text))]],
             inr tt))))
          else
            promise_then (get json "score") (fun score =>
            ([Log [Val (VStr "Lighthouse CI score:"); Val score]], inr tt))))
    (fun err =>
       console_log [Val (VStr "Lighthouse CI failed"); Err err];;
       process_exit 1).

(** The module body: the deprecation warning, then the configuration,
    then the run if this is a PR or --pr is false. *)
Definition main (argv : Argv) : M unit :=
  when (truthy (process_env "API_KEY"))
    (log_str "Warning: The environment variable API_KEY is deprecated. Please use LIGHTHOUSE_API_KEY instead.");;
  config ← getConfig argv;
  if truthy (runLighthouse config)
  then run config
  else log_str "Lighthouse is not run for non-PR commits by default. Run with --pr=false to enable for all builds.".
End Program.

(** ** A runtime and inputs to run the program on *)

Module Examples.

(** The integer a number denotes, when it denotes one. *)
Definition Z_of_number (n : js_number) : option Z :=
  match n with
  | S754_zero _ => Some 0
  | S754_finite s m e =>
      let m := if s then Z.neg m else Z.pos m in
      if 0 <=? e then Some (m * 2 ^ e)
      else if m mod 2 ^ (- e) =? 0 then Some (m / 2 ^ (- e))
      else None
  | _ => None
  end.

Fixpoint all_digits (s : string) : bool :=
  match s with
  | String c rest => bool_decide (is_Some (digit c)) && all_digits rest
  | EmptyString => true
  end.

(** The two conversions on the fragment the examples stay in: the empty
    string and unsigned decimal integers are read exactly and any other
    string is read as NaN (so fractions, exponents, signs, white space
    and the other numeric literals of JavaScript are outside the
    fragment); integers below 10^21, NaN and the infinities are printed
    as JavaScript prints them, and fractions are outside the fragment. *)
Definition string_to_number (s : string) : js_number :=
  if all_digits s then number_of_Z false (default 0 (digits s None)) else NaN.

Definition number_to_string (n : js_number) : string :=
  match n with
  | S754_nan => "NaN"
  | S754_infinity false => "Infinity"
  | S754_infinity true => "-Infinity"
  | _ => match Z_of_number n with
         | Some z => if Z.abs z <? 10 ^ 21 then pretty z else "NaN"
         | None => "NaN"
         end
  end.

#[export] Instance runtime : JsRuntime :=
  {| StringToNumber := string_to_number; NumberToString := number_to_string |}.

(** [runLighthouse.js https://example.com] *)
Definition argv_url : Argv :=
  {| argv_positional := [VStr "https://example.com"];
     argv_help := false; argv_comment := true; argv_pr := true;
     argv_score := VUndefined; argv_runner := VUndefined |}.

(** [runLighthouse.js --pr=false https://example.com] *)
Definition argv_all_builds : Argv :=
  {| argv_positional := [VStr "https://example.com"];
     argv_help := false; argv_comment := true; argv_pr := false;
     argv_score := VUndefined; argv_runner := VUndefined |}.

(** [runLighthouse.js --score=93 --runner=wpt --no-comment https://example.com] *)
Definition argv_wpt : Argv :=
  {| argv_positional := [VStr "https://example.com"];
     argv_help := false; argv_comment := false; argv_pr := true;
     argv_score := VNum (number_of_Z false 93); argv_runner := VStr "wpt" |}.

(** [runLighthouse.js], with no argument at all *)
Definition argv_bare : Argv :=
  {| argv_positional := [];
     argv_help := false; argv_comment := true; argv_pr := true;
     argv_score := VUndefined; argv_runner := VUndefined |}.

(** [runLighthouse.js --no-comment https://example.com] *)
Definition argv_no_comment : Argv :=
  {| argv_positional := [VStr "https://example.com"];
     argv_help := false; argv_comment := false; argv_pr := true;
     argv_score := VUndefined; argv_runner := VUndefined |}.

(** [runLighthouse.js --runner=foo https://example.com] *)
Definition argv_runner_foo : Argv :=
  {| argv_positional := [VStr "https://example.com"];
     argv_help := false; argv_comment := true; argv_pr := true;
     argv_score := VUndefined; argv_runner := VStr "foo" |}.


(** A pull-request build on Travis, and one on CircleCI. *)
Definition env_travis : gmap string string :=
  <["TRAVIS" := "true"]> (<["TRAVIS_EVENT_TYPE" := "pull_request"]>
  (<["TRAVIS_PULL_REQUEST" := "12"]> (<["TRAVIS_PULL_REQUEST_SHA" := "abc123"]>
  (<["TRAVIS_PULL_REQUEST_SLUG" := "ebidel/lighthouse-ci"]>
  (<["LIGHTHOUSE_API_KEY" := "secret"]> ∅))))).

Definition env_circle : gmap string string :=
  <["CIRCLECI" := "true"]>
  (<["CIRCLE_PULL_REQUEST" := "https://github.com/ebidel/lighthouse-ci/pull/34"]>
  (<["CIRCLE_PR_NUMBER" := "34"]> (<["CIRCLE_SHA1" := "def456"]>
  (<["LIGHTHOUSE_API_KEY" := "secret"]> ∅)))).

(** Both providers' variables at once. *)
Definition env_both : gmap string string := env_travis ∪ env_circle.

(** Servers: one that answers with a score, one that starts a run on
    WebPageTest, one whose body is not JSON, and no server at all. *)
Definition fetch_score (score : Z) (_ : Request) : option Response :=
  Some {| json := Some (VObj [("score", VNum (number_of_Z false score))]) |}.

Definition fetch_target_url (_ : Request) : option Response :=
  Some {| json := Some (VObj [("data", VObj [("target_url", VStr "http://x")])]) |}.

Definition fetch_not_json (_ : Request) : option Response := Some {| json := None |}.

(** A server that answers with the JSON text [null], and one that
    answers with the empty object. *)
Definition fetch_null (_ : Request) : option Response :=
  Some {| json := Some VNull |}.

Definition fetch_empty_object (_ : Request) : option Response :=
  Some {| json := Some (VObj []) |}.

(** The configuration of
    [runLighthouse.js --score=93 --pr=false https://example.com]
    with no CI variable set, and the same for [--runner=wpt]. *)
Definition config_chrome : Config :=
  {| testUrl := VStr "https://example.com"; runLighthouse := VBool true;
     addComment := true; minPassScore := number_of_Z false 93;
     runner := VStr "chrome";
     pr := {| number := VNull; sha := VNull |};
     repo := {| owner := VNull; name := VNull |} |}.

(** What [runLighthouse.js https://example.com] resolves to in the
    Travis build [env_travis]. *)
Definition config_travis : Config :=
  {| testUrl := VStr "https://example.com"; runLighthouse := VBool true;
     addComment := true; minPassScore := NaN;
     runner := VStr "chrome";
     pr := {| number := VNum (number_of_Z false 12); sha := VStr "abc123" |};
     repo := {| owner := VStr "ebidel"; name := VStr "lighthouse-ci" |} |}.

Definition config_wpt : Config :=
  {| testUrl := VStr "https://example.com"; runLighthouse := VBool true;
     addComment := true; minPassScore := number_of_Z false 93;
     runner := VStr "wpt";
     pr := {| number := VNull; sha := VNull |};
     repo := {| owner := VNull; name := VNull |} |}.

Definition fetch_down (_ : Request) : option Response := None.

(** A text between double quotes, and the body of the request that
    [runLighthouse.js https://example.com] sends from [env_travis]. *)
Definition quoted (s : string) : string := dq +:+ s +:+ dq.

Definition body_travis : string :=
  "{" +:+ quoted "format" +:+ ":" +:+ quoted "json"
  +:+ "," +:+ quoted "testUrl" +:+ ":" +:+ quoted "https://example.com"
  +:+ "," +:+ quoted "runLighthouse" +:+ ":true"
  +:+ "," +:+ quoted "addComment" +:+ ":true"
  +:+ "," +:+ quoted "minPassScore" +:+ ":null"
  +:+ "," +:+ quoted "runner" +:+ ":" +:+ quoted "chrome"
  +:+ "," +:+ quoted "pr" +:+ ":{" +:+ quoted "number" +:+ ":12,"
                          +:+ quoted "sha" +:+ ":" +:+ quoted "abc123" +:+ "}"
  +:+ "," +:+ quoted "repo" +:+ ":{" +:+ quoted "owner" +:+ ":" +:+ quoted "ebidel" +:+ ","
                            +:+ quoted "name" +:+ ":" +:+ quoted "lighthouse-ci" +:+ "}"
  +:+ "}".

(** [runLighthouse.js --score.toString=1 https://example.com] and the
    same with [--pr=false]: the dotted option makes the score an object
    with a toString property of its own. *)
Definition argv_score_object : Argv :=
  {| argv_positional := [VStr "https://example.com"];
     argv_help := false; argv_comment := true; argv_pr := true;
     argv_score := VObj [("toString", VNum (number_of_Z false 1))];
     argv_runner := VUndefined |}.

Definition argv_score_object_all_builds : Argv :=
  {| argv_positional := [VStr "https://example.com"];
     argv_help := false; argv_comment := true; argv_pr := false;
     argv_score := VObj [("toString", VNum (number_of_Z false 1))];
     argv_runner := VUndefined |}.


(** A server for the wpt runner whose target_url is an object with a
    toString property. *)
Definition fetch_target_url_object (_ : Request) : option Response :=
  Some {| json := Some (VObj [("data",
                                VObj [("target_url",
                                       VObj [("toString", VNum (number_of_Z false 1))])])]) |}.

(** [runLighthouse.js --help https://example.com] *)
Definition argv_help_url : Argv :=
  {| argv_positional := [VStr "https://example.com"];
     argv_help := true; argv_comment := true; argv_pr := true;
     argv_score := VUndefined; argv_runner := VUndefined |}.

(** [runLighthouse.js https://example.com https://example.org] *)
Definition argv_two_urls : Argv :=
  {| argv_positional := [VStr "https://example.com"; VStr "https://example.org"];
     argv_help := false; argv_comment := true; argv_pr := true;
     argv_score := VUndefined; argv_runner := VUndefined |}.

(** A push build on Travis: the provider sets TRAVIS_PULL_REQUEST to the
    word false. *)
Definition env_travis_push : gmap string string :=
  <["TRAVIS" := "true"]> (<["TRAVIS_EVENT_TYPE" := "push"]>
  (<["TRAVIS_PULL_REQUEST" := "false"]> (<["LIGHTHOUSE_API_KEY" := "secret"]> ∅))).

(** Both names of the key, and a host of one's own. *)
Definition env_legacy_key : gmap string string :=
  <["LIGHTHOUSE_API_KEY" := "new"]> (<["API_KEY" := "old"]>
  (<["CI_HOST" := "http://localhost:8080"]> ∅)).

(** A slug with no slash in it. *)
Definition env_bare_slug : gmap string string :=
  <["TRAVIS_PULL_REQUEST_SLUG" := "lighthouse-ci"]> ∅.

(** Servers for the wpt runner: the data has no target_url, the data is
    null. *)
Definition fetch_data_empty (_ : Request) : option Response :=
  Some {| json := Some (VObj [("data", VObj [])]) |}.

Definition fetch_data_null (_ : Request) : option Response :=
  Some {| json := Some (VObj [("data", VNull)]) |}.

End Examples.

(** ** Vocabulary of the properties *)

(** A usage error: the usage text is the last thing printed, the process
    exits with code 1, and nothing was sent. *)
Definition UsageError {A} (m : M A) : Prop :=
  snd m = Exit 1 ∧ last (trace m) = Some (Log [Val (VStr usage)]) ∧ requests m = [].

(** What the module prints before it reads the command line. *)
Definition deprecation_warning (env : gmap string string) : list event :=
  if truthy (process_env env "API_KEY")
  then [Log [Val (VStr "Warning: The environment variable API_KEY is deprecated. Please use LIGHTHOUSE_API_KEY instead.")]]
  else [].

Definition skipped : event :=
  Log [Val (VStr "Lighthouse is not run for non-PR commits by default. Run with --pr=false to enable for all builds.")].


(** What [JSON.parse] can return: no undefined and no NaN anywhere, and
    no array with named properties. *)
Fixpoint is_json (v : value) : bool :=
  match v with
  | VUndefined => false
  | VNull | VBool _ | VStr _ => true
  | VNum S754_nan => false
  | VNum _ => true
  | VArr elems props => bool_decide (props = []) && forallb is_json elems
  | VObj props => forallb (fun p => is_json (snd p)) props
  end.

Definition has_prop (v : value) (key : string) : bool :=
  match v with
  | VObj props | VArr _ props => bool_decide (is_Some (assoc key props))
  | _ => false
  end.

(** The configuration a computation returned, if it returned one. *)
Definition config_of (m : M Config) : option Config :=
  match snd m with
  | Ret c => Some c
  | Exit _ | Uncaught _ => None
  end.

(** Undefined or null, and the property [key] of a value where reading
    it does not raise: undefined when the value has no such property. *)
Definition nullish (v : value) : bool :=
  match v with
  | VUndefined | VNull => true
  | _ => false
  end.

Definition field (v : value) (key : string) : value :=
  match v with
  | VObj props | VArr _ props => default VUndefined (assoc key props)
  | _ => VUndefined
  end.

Section Vocabulary.
Context {rt : JsRuntime}.

(** What [getConfig] asks of the command line, in the order it asks:
    no help flag, a URL, a score that converts to a number and is not
    zero or NaN when comments are off, a known runner. *)
Definition resolves (argv : Argv) : bool :=
  negb (argv_help argv)
  && truthy (index (argv_positional argv) 0)
  && match Number (argv_score argv) with
     | Some minPassScore => argv_comment argv || number_truthy minPassScore
     | None => false
     end
  && includes (Object_keys RUNNERS) (js_or (argv_runner argv) (VStr RUNNERS_chrome)).

(** The score option is absent, zero, or converts to NaN. *)
Definition score_missing (argv : Argv) : Prop :=
  argv_score argv = VUndefined
  ∨ (∃ sign, Number (argv_score argv) = Some (S754_zero sign))
  ∨ Number (argv_score argv) = Some NaN.

(** The parsed body [v] of a response can be reported: for the wpt runner
    the body and its data are neither undefined nor null and the
    target_url converts to a string, for the other runners the body is
    neither undefined nor null. *)
Definition reportable (c : Config) (v : value) : bool :=
  if strict_eq_str (runner c) RUNNERS_wpt
  then negb (nullish v)
       && negb (nullish (field v "data"))
       && bool_decide (is_Some (ToString (field (field v "data") "target_url")))
  else negb (nullish v).
End Vocabulary.

(** ** Vocabulary of the further properties *)

(** The character [c] does not occur in [s]. *)
Fixpoint no_char (c : ascii) (s : string) : bool :=
  match s with
  | String d rest => negb (Ascii.eqb d c) && no_char c rest
  | EmptyString => true
  end.

(** After its leading white space and one sign, [s] goes on with a digit. *)
Definition starts_with_digit (s : string) : bool :=
  let s := trimStart s in
  let s :=
    match s with
    | String "-" rest => rest
    | String "+" rest => rest
    | _ => s
    end in
  match s with
  | String c _ => bool_decide (is_Some (digit c))
  | EmptyString => false
  end.

(** The command line with other positional arguments, or another score. *)
Definition with_positional (argv : Argv) (positional : list value) : Argv :=
  {| argv_positional := positional;
     argv_help := argv_help argv; argv_comment := argv_comment argv;
     argv_pr := argv_pr argv; argv_score := argv_score argv;
     argv_runner := argv_runner argv |}.

Definition with_score (argv : Argv) (score : value) : Argv :=
  {| argv_positional := argv_positional argv;
     argv_help := argv_help argv; argv_comment := argv_comment argv;
     argv_pr := argv_pr argv; argv_score := score;
     argv_runner := argv_runner argv |}.

Section JsonMembers.
Context {rt : JsRuntime}.

(** The text of one property inside a serialized object: nothing for an
    undefined value. *)
Definition json_member (p : string * value) : list string :=
  match SerializeJSONProperty (snd p) with
  | Some s => [QuoteJSONString (fst p) +:+ ":" +:+ s]
  | None => []
  end.

(** The configuration an invocation resolves to, and [fallback] when it
    does not resolve. *)
Definition resolved_or (fallback : Config) (env : gmap string string) (argv : Argv)
  : Config :=
  default fallback (config_of (getConfig env argv)).
End JsonMembers.

(** ** Properties *)

Section Properties.
Context {rt : JsRuntime}.
Variable env : gmap string string.
Variable fetch : Request -> option Response.

Lemma requests_app {A B} (evs : list event) (r : result A) (evs' : list event) (r' : result B) :
  requests (evs ++ evs', r') = requests (evs, r) ++ requests (evs', r').
Proof. unfold requests, trace; simpl. apply flat_map_app. Qed.

(** The outcome of [getConfig], check by check. *)
Lemma getConfig_help argv :
  argv_help argv = true ->
  getConfig env argv = ([Log [Val (VStr usage)]], Exit 1).
Proof. intros H. unfold getConfig. rewrite H. reflexivity. Qed.

Lemma getConfig_no_url argv :
  argv_help argv = false ->
  truthy (index (argv_positional argv) 0) = false ->
  getConfig env argv
  = ([Log [Val (VStr "Please provide a url to test.")]; Log [Val (VStr usage)]], Exit 1).
Proof. intros H1 H2. unfold getConfig. rewrite H1, H2. reflexivity. Qed.

Lemma getConfig_score_raises argv :
  argv_help argv = false ->
  truthy (index (argv_positional argv) 0) = true ->
  Number (argv_score argv) = None ->
  getConfig env argv = ([], Uncaught TypeError).
Proof.
  intros H1 H2 H3. unfold getConfig, to_number. rewrite H1, H2, H3. reflexivity.
Qed.

Lemma getConfig_no_score argv minPassScore :
  argv_help argv = false ->
  truthy (index (argv_positional argv) 0) = true ->
  Number (argv_score argv) = Some minPassScore ->
  argv_comment argv = false ->
  number_truthy minPassScore = false ->
  getConfig env argv
  = ([Log [Val (VStr "Please provide a --score when using --no-comment.")];
      Log [Val (VStr usage)]], Exit 1).
Proof.
  intros H1 H2 Hn H3 H4. unfold getConfig, to_number.
  rewrite H1, H2, Hn. cbn. rewrite H3, H4. reflexivity.
Qed.

Lemma getConfig_unknown_runner argv minPassScore text :
  argv_help argv = false ->
  truthy (index (argv_positional argv) 0) = true ->
  Number (argv_score argv) = Some minPassScore ->
  argv_comment argv || number_truthy minPassScore = true ->
  includes (Object_keys RUNNERS) (js_or (argv_runner argv) (VStr RUNNERS_chrome)) = false ->
  ToString (js_or (argv_runner argv) (VStr RUNNERS_chrome)) = Some text ->
  getConfig env argv
  = ([Log [Val (VStr ("Unknown runner " +:+ dq +:+ text +:+ dq
                      +:+ ". Options: chrome,wpt"))];
      Log [Val (VStr usage)]], Exit 1).
Proof.
  intros H1 H2 Hn H3 H4 H5. unfold getConfig, to_number, to_string.
  rewrite H1, H2, Hn. cbn -[includes ToString js_or Object_keys].
  replace (negb (argv_comment argv) && negb (number_truthy minPassScore))
    with false by (rewrite <- negb_orb, H3; reflexivity).
  cbn -[includes ToString js_or Object_keys]. rewrite H4, H5. reflexivity.
Qed.

Lemma getConfig_runner_raises argv minPassScore :
  argv_help argv = false ->
  truthy (index (argv_positional argv) 0) = true ->
  Number (argv_score argv) = Some minPassScore ->
  argv_comment argv || number_truthy minPassScore = true ->
  includes (Object_keys RUNNERS) (js_or (argv_runner argv) (VStr RUNNERS_chrome)) = false ->
  ToString (js_or (argv_runner argv) (VStr RUNNERS_chrome)) = None ->
  getConfig env argv = ([], Uncaught TypeError).
Proof.
  intros H1 H2 Hn H3 H4 H5. unfold getConfig, to_number, to_string.
  rewrite H1, H2, Hn. cbn -[includes ToString js_or Object_keys].
  replace (negb (argv_comment argv) && negb (number_truthy minPassScore))
    with false by (rewrite <- negb_orb, H3; reflexivity).
  cbn -[includes ToString js_or Object_keys]. rewrite H4, H5. reflexivity.
Qed.

Lemma includes_runners v :
  includes (Object_keys RUNNERS) v = true ->
  v = VStr RUNNERS_chrome ∨ v = VStr RUNNERS_wpt.
Proof.
  destruct v; try discriminate. cbn. rewrite orb_false_r.
  intros H. apply orb_prop in H as [H | H]; apply String.eqb_eq in H; subst; auto.
Qed.

(** The four conditions that [resolves] puts together. *)
Lemma resolves_true argv :
  resolves argv = true ->
  argv_help argv = false
  ∧ truthy (index (argv_positional argv) 0) = true
  ∧ (∃ minPassScore, Number (argv_score argv) = Some minPassScore
                     ∧ argv_comment argv || number_truthy minPassScore = true)
  ∧ includes (Object_keys RUNNERS) (js_or (argv_runner argv) (VStr RUNNERS_chrome)) = true.
Proof.
  unfold resolves. intros H.
  apply andb_prop in H as [H H4]. apply andb_prop in H as [H H3].
  apply andb_prop in H as [H1 H2]. apply negb_true_iff in H1.
  repeat split; try assumption.
  destruct (Number (argv_score argv)) as [n|]; [eauto | discriminate].
Qed.

Lemma getConfig_resolved argv :
  resolves argv = true ->
  ∃ c text,
    getConfig env argv
    = ([Log [Val (VStr ("Using runner: " +:+ text))];
        Log [Val (VStr "ENV:"); Val (process_env env "CIRCLE_PROJECT_USERNAME");
             Val (process_env env "CIRCLE_PROJECT_REPONAME")];
        Log [Val (VStr "Slug:"); Val (owner (repo c)); Val (name (repo c))]], Ret c)
    ∧ testUrl c = index (argv_positional argv) 0
    ∧ runLighthouse c
      = js_or (VBool (negb (argv_pr argv)))
          (js_and (VBool (argv_pr argv))
             (js_or (VBool (strict_eq_str (process_env env "TRAVIS_EVENT_TYPE") "pull_request"))
                    (process_env env "CIRCLE_PULL_REQUEST")))
    ∧ addComment c = argv_comment argv
    ∧ Number (argv_score argv) = Some (minPassScore c)
    ∧ runner c = js_or (argv_runner argv) (VStr RUNNERS_chrome)
    ∧ pr c = getPrInfo env
    ∧ runner c = VStr text.
Proof.
  intros H. apply resolves_true in H as (H1 & H2 & (n & Hn & H3) & H4).
  assert (∃ text, js_or (argv_runner argv) (VStr RUNNERS_chrome) = VStr text)
    as (text & Htext)
    by (destruct (includes_runners _ H4) as [-> | ->]; eauto).
  eexists. exists text. split.
  - unfold getConfig, to_number, to_string. rewrite H1, H2, Hn.
    cbn -[includes ToString js_or Object_keys].
    replace (negb (argv_comment argv) && negb (number_truthy n))
      with false by (rewrite <- negb_orb, H3; reflexivity).
    cbn -[includes ToString js_or Object_keys]. rewrite H4, Htext.
    cbn. apply (f_equal2 pair); [ | reflexivity ]. reflexivity.
  - repeat split; first [reflexivity | exact Hn | symmetry; exact Htext].
Qed.

(** When a check fails, [getConfig] ends in a usage error or in the
    TypeError of a conversion. *)
Lemma getConfig_rejects argv :
  resolves argv = false ->
  UsageError (getConfig env argv) ∨ getConfig env argv = ([], Uncaught TypeError).
Proof.
  unfold resolves. intros H.
  destruct (argv_help argv) eqn:H1.
  { left. rewrite getConfig_help by assumption. repeat split. }
  destruct (truthy (index (argv_positional argv) 0)) eqn:H2.
  2: { left. rewrite getConfig_no_url by assumption. repeat split. }
  destruct (Number (argv_score argv)) as [n|] eqn:Hn.
  2: { right. apply getConfig_score_raises; assumption. }
  destruct (argv_comment argv || number_truthy n) eqn:H3.
  2: { apply orb_false_elim in H3 as [H3 H3']. left.
       erewrite getConfig_no_score by eassumption. repeat split. }
  simpl in H.
  destruct (ToString (js_or (argv_runner argv) (VStr RUNNERS_chrome))) as [text|] eqn:H5.
  - left. erewrite getConfig_unknown_runner by eassumption. repeat split.
  - right. eapply getConfig_runner_raises; eassumption.
Qed.

(** [getConfig] returns a configuration exactly when the checks pass. *)
Lemma getConfig_ret_resolves argv c :
  snd (getConfig env argv) = Ret c -> resolves argv = true.
Proof.
  intros H. destruct (resolves argv) eqn:E; [reflexivity|].
  apply getConfig_rejects in E as [(E & _) | E]; [congruence|].
  rewrite E in H. discriminate.
Qed.

Lemma getConfig_requests argv : requests (getConfig env argv) = [].
Proof.
  destruct (resolves argv) eqn:E.
  - apply getConfig_resolved in E as (c & text & -> & _). reflexivity.
  - apply getConfig_rejects in E as [(_ & _ & E) | ->]; [exact E | reflexivity].
Qed.

(** [main] around [getConfig]. *)
Lemma main_exit argv evs code :
  getConfig env argv = (evs, Exit code) ->
  main env fetch argv = (deprecation_warning env ++ evs, Exit code).
Proof.
  intros H. unfold main, deprecation_warning. rewrite H.
  destruct (truthy (process_env env "API_KEY")); reflexivity.
Qed.

Lemma main_uncaught argv evs e :
  getConfig env argv = (evs, Uncaught e) ->
  main env fetch argv = (deprecation_warning env ++ evs, Uncaught e).
Proof.
  intros H. unfold main, deprecation_warning. rewrite H.
  destruct (truthy (process_env env "API_KEY")); reflexivity.
Qed.

Lemma main_ret argv evs c :
  getConfig env argv = (evs, Ret c) ->
  main env fetch argv
  = if truthy (runLighthouse c)
    then (deprecation_warning env ++ evs ++ trace (run env fetch c), snd (run env fetch c))
    else (deprecation_warning env ++ evs ++ [skipped], Ret tt).
Proof.
  intros H. unfold main, deprecation_warning. rewrite H.
  destruct (truthy (process_env env "API_KEY")); cbn -[run];
    destruct (truthy (runLighthouse c)); try reflexivity;
    destruct (run env fetch c) as [evs' r]; reflexivity.
Qed.

Lemma requests_warning {A} evs (r : result A) :
  requests (deprecation_warning env ++ evs, r) = requests (evs, r).
Proof.
  unfold deprecation_warning.
  destruct (truthy (process_env env "API_KEY")); reflexivity.
Qed.

Lemma last_warning evs e :
  last evs = Some e -> last (deprecation_warning env ++ evs) = Some e.
Proof.
  intros H. rewrite last_app, H. reflexivity.
Qed.

Lemma main_usage argv :
  UsageError (getConfig env argv) -> UsageError (main env fetch argv).
Proof.
  destruct (getConfig env argv) as [evs r] eqn:E.
  intros (H1 & H2 & H3). simpl in H1. subst r.
  rewrite (main_exit _ _ _ E). repeat split.
  - apply last_warning, H2.
  - rewrite requests_warning. exact H3.
Qed.

(** A command line that does not resolve gives no configuration, sends
    nothing and ends with exit code 1. *)
Lemma main_rejects argv :
  resolves argv = false ->
  config_of (getConfig env argv) = None
  ∧ requests (main env fetch argv) = []
  ∧ exit_code (main env fetch argv) = 1.
Proof.
  intros Hres. destruct (getConfig_rejects argv Hres) as [Husage | Hraise].
  - pose proof (main_usage argv Husage) as (H1 & _ & H3).
    destruct Husage as (H & _). unfold config_of, exit_code. rewrite H, H1. auto.
  - rewrite (main_uncaught _ _ _ Hraise). unfold config_of. rewrite Hraise.
    split; [reflexivity|]. split; [|reflexivity].
    rewrite requests_warning. reflexivity.
Qed.

(** The outcome of [run], case by case. *)
Lemma run_rejected c :
  fetch (request env c) = None ->
  run env fetch c
  = ([Fetch (request env c); Log [Val (VStr "Lighthouse CI failed"); Err FetchError]],
     Exit 1).
Proof. intros H. unfold run, do_fetch. rewrite H. reflexivity. Qed.

Lemma run_invalid_json c resp :
  fetch (request env c) = Some resp ->
  json resp = None ->
  run env fetch c
  = ([Fetch (request env c); Log [Val (VStr "Lighthouse CI failed"); Err InvalidJson]],
     Exit 1).
Proof. intros H1 H2. unfold run, do_fetch, resp_json. rewrite H1; cbn. rewrite H2. reflexivity. Qed.

Lemma run_chrome_score c resp v score :
  fetch (request env c) = Some resp ->
  json resp = Some v ->
  strict_eq_str (runner c) RUNNERS_wpt = false ->
  get_prop v "score" = Some score ->
  run env fetch c
  = ([Fetch (request env c); Log [Val (VStr "Lighthouse CI score:"); Val score]], Ret tt).
Proof.
  intros H1 H2 H3 H4. unfold run, do_fetch, resp_json, get.
  rewrite H1; cbn. rewrite H2; cbn. rewrite H3; cbn. rewrite H4. reflexivity.
Qed.

Lemma run_chrome_raises c resp v :
  fetch (request env c) = Some resp ->
  json resp = Some v ->
  strict_eq_str (runner c) RUNNERS_wpt = false ->
  get_prop v "score" = None ->
  run env fetch c
  = ([Fetch (request env c); Log [Val (VStr "Lighthouse CI failed"); Err TypeError]],
     Exit 1).
Proof.
  intros H1 H2 H3 H4. unfold run, do_fetch, resp_json, get.
  rewrite H1; cbn. rewrite H2; cbn. rewrite H3; cbn. rewrite H4. reflexivity.
Qed.

Lemma run_wpt_target_url c resp v data target_url text :
  fetch (request env c) = Some resp ->
  json resp = Some v ->
  strict_eq_str (runner c) RUNNERS_wpt = true ->
  get_prop v "data" = Some data ->
  get_prop data "target_url" = Some target_url ->
  ToString target_url = Some text ->
  run env fetch c
  = ([Fetch (request env c);
      Log [Val (VStr ("Started Lighthouse run on WebPageTest: " +:+ text))]],
     Ret tt).
Proof.
  intros H1 H2 H3 H4 H5 H6. unfold run, do_fetch, resp_json, get, to_string_in_handler.
  rewrite H1; cbn. rewrite H2; cbn. rewrite H3; cbn. rewrite H4; cbn. rewrite H5; cbn.
  rewrite H6. reflexivity.
Qed.

Lemma run_wpt_raises c resp v :
  fetch (request env c) = Some resp ->
  json resp = Some v ->
  strict_eq_str (runner c) RUNNERS_wpt = true ->
  (get_prop v "data" = None
   ∨ (∃ data, get_prop v "data" = Some data ∧ get_prop data "target_url" = None)
   ∨ (∃ data target_url, get_prop v "data" = Some data
                         ∧ get_prop data "target_url" = Some target_url
                         ∧ ToString target_url = None)) ->
  run env fetch c
  = ([Fetch (request env c); Log [Val (VStr "Lighthouse CI failed"); Err TypeError]],
     Exit 1).
Proof.
  intros H1 H2 H3 H4. unfold run, do_fetch, resp_json, get, to_string_in_handler.
  rewrite H1; cbn. rewrite H2; cbn. rewrite H3; cbn.
  destruct H4 as [H4 | [(data & H4 & H5) | (data & u & H4 & H5 & H6)]];
    rewrite H4; cbn; [reflexivity | rewrite H5; reflexivity |].
  rewrite H5; cbn. rewrite H6. reflexivity.
Qed.

(** Whatever comes back, [run] sends one request. *)
Lemma run_requests c : requests (run env fetch c) = [request env c].
Proof.
  destruct (fetch (request env c)) as [resp|] eqn:H1.
  2: { rewrite run_rejected by assumption. reflexivity. }
  destruct (json resp) as [v|] eqn:H2.
  2: { erewrite run_invalid_json by eassumption. reflexivity. }
  destruct (strict_eq_str (runner c) RUNNERS_wpt) eqn:H3.
  - destruct (get_prop v "data") as [data|] eqn:H4.
    2: { erewrite run_wpt_raises by eauto. reflexivity. }
    destruct (get_prop data "target_url") as [u|] eqn:H5.
    2: { erewrite run_wpt_raises by eauto. reflexivity. }
    destruct (ToString u) as [text|] eqn:H6.
    + erewrite run_wpt_target_url by eassumption. reflexivity.
    + erewrite run_wpt_raises by eauto 7. reflexivity.
  - destruct (get_prop v "score") as [score|] eqn:H4.
    + erewrite run_chrome_score by eassumption. reflexivity.
    + erewrite run_chrome_raises by eassumption. reflexivity.
Qed.

(** Reading a property raises on undefined and null only. *)
Lemma get_prop_field v key :
  get_prop v key = if nullish v then None else Some (field v key).
Proof. destruct v; reflexivity. Qed.

Lemma field_missing v key : has_prop v key = false -> field v key = VUndefined.
Proof.
  destruct v as [| | | | | elems props | props]; try reflexivity; simpl;
    destruct (assoc key props); first [discriminate | reflexivity].
Qed.

(** The outcome of [run] on a body that parsed. *)
Lemma run_parsed c resp v :
  fetch (request env c) = Some resp ->
  json resp = Some v ->
  if reportable c v
  then ∃ line, run env fetch c = ([Fetch (request env c); Log line], Ret tt)
  else run env fetch c
       = ([Fetch (request env c); Log [Val (VStr "Lighthouse CI failed"); Err TypeError]],
          Exit 1).
Proof.
  intros H1 H2. unfold reportable.
  destruct (strict_eq_str (runner c) RUNNERS_wpt) eqn:H3.
  - destruct (nullish v) eqn:Hv; simpl.
    { eapply run_wpt_raises; try eassumption. left.
      rewrite get_prop_field, Hv. reflexivity. }
    assert (Hdata : get_prop v "data" = Some (field v "data"))
      by (rewrite get_prop_field, Hv; reflexivity).
    destruct (nullish (field v "data")) eqn:Hd; simpl.
    { eapply run_wpt_raises; try eassumption. right. left.
      exists (field v "data"). split; [exact Hdata|].
      rewrite get_prop_field, Hd. reflexivity. }
    assert (Hurl : get_prop (field v "data") "target_url"
                   = Some (field (field v "data") "target_url"))
      by (rewrite get_prop_field, Hd; reflexivity).
    destruct (ToString (field (field v "data") "target_url")) as [text|] eqn:Ht; simpl.
    + eexists. eapply run_wpt_target_url; eassumption.
    + eapply run_wpt_raises; try eassumption. right. right. eauto.
  - destruct (nullish v) eqn:Hv; simpl.
    + eapply run_chrome_raises; try eassumption. rewrite get_prop_field, Hv. reflexivity.
    + eexists. eapply run_chrome_score; try eassumption.
      rewrite get_prop_field, Hv. reflexivity.
Qed.

Lemma config_of_ret argv c :
  config_of (getConfig env argv) = Some c -> snd (getConfig env argv) = Ret c.
Proof.
  unfold config_of. destruct (snd (getConfig env argv)); congruence.
Qed.

Lemma not_pull_request :
  env !! "TRAVIS_EVENT_TYPE" ≠ Some "pull_request" ->
  strict_eq_str (process_env env "TRAVIS_EVENT_TYPE") "pull_request" = false.
Proof.
  intros H. unfold process_env.
  destruct (env !! "TRAVIS_EVENT_TYPE") as [s|]; [|reflexivity].
  apply String.eqb_neq. congruence.
Qed.

(** C1 (as amended). For every invocation that resolution accepts (no
    help flag, a truthy URL, a score that converts to a number without
    raising and is not zero or NaN when comments are off, a recognized
    runner), where the pr flag is true, TRAVIS_EVENT_TYPE is not
    'pull_request' and CIRCLE_PULL_REQUEST is unset: resolution yields a
    configuration whose runLighthouse is undefined, hence falsy, nothing
    is sent, the last line printed says that the run was skipped, and the
    exit code is 0. *)
Theorem non_pr_build_is_skipped argv :
  resolves argv = true ->
  argv_pr argv = true ->
  env !! "TRAVIS_EVENT_TYPE" ≠ Some "pull_request" ->
  env !! "CIRCLE_PULL_REQUEST" = None ->
  ∃ c, config_of (getConfig env argv) = Some c
       ∧ runLighthouse c = VUndefined
       ∧ truthy (runLighthouse c) = false
       ∧ requests (main env fetch argv) = []
       ∧ last (trace (main env fetch argv)) = Some skipped
       ∧ exit_code (main env fetch argv) = 0.
Proof.
  intros Hres Hpr Htravis Hcircle.
  destruct (getConfig_resolved argv Hres) as (c & text & Hc & _ & Hrun & _).
  assert (Hundef : runLighthouse c = VUndefined).
  { rewrite Hrun, Hpr, (not_pull_request Htravis).
    unfold process_env. rewrite Hcircle. reflexivity. }
  assert (Hfalsy : truthy (runLighthouse c) = false) by (rewrite Hundef; reflexivity).
  exists c. split; [unfold config_of; rewrite Hc; reflexivity|].
  split; [exact Hundef|]. split; [exact Hfalsy|].
  rewrite (main_ret _ _ _ Hc), Hfalsy. repeat split.
  - rewrite requests_warning.
    rewrite (requests_app _ (Ret c)), <- Hc, getConfig_requests. reflexivity.
  - unfold trace; simpl. apply last_warning. reflexivity.
Qed.

(** C2. If the pr flag is false, the configuration that resolution yields
    has runLighthouse = true, whatever the environment holds; and whether
    resolution yields a configuration is decided by the command line alone. *)
Theorem pr_false_always_runs argv :
  argv_pr argv = false ->
  (∀ c, config_of (getConfig env argv) = Some c -> runLighthouse c = VBool true)
  ∧ (resolves argv = true -> ∃ c, config_of (getConfig env argv) = Some c).
Proof.
  intros Hpr. split.
  - intros c Hc. apply config_of_ret in Hc.
    destruct (getConfig_resolved argv (getConfig_ret_resolves _ _ Hc))
      as (c' & text & Hc' & _ & Hrun & _).
    rewrite Hc' in Hc. simpl in Hc. injection Hc as <-.
    rewrite Hrun, Hpr. reflexivity.
  - intros Hres. destruct (getConfig_resolved argv Hres) as (c & text & Hc & _).
    exists c. unfold config_of. rewrite Hc. reflexivity.
Qed.

Lemma score_missing_falsy argv :
  score_missing argv ->
  ∃ minPassScore, Number (argv_score argv) = Some minPassScore
                  ∧ number_truthy minPassScore = false.
Proof.
  intros [H | [[sign H] | H]]; rewrite H; eexists; split; reflexivity.
Qed.

(** C3. With the comment flag false and the score absent, zero or NaN,
    resolution fails with a usage error: the usage text is printed, the
    exit code is 1 and nothing is sent; when the help and URL checks pass,
    the message asks for a score. *)
Theorem no_comment_needs_score argv :
  argv_comment argv = false ->
  score_missing argv ->
  UsageError (getConfig env argv)
  ∧ UsageError (main env fetch argv)
  ∧ (argv_help argv = false ->
     truthy (index (argv_positional argv) 0) = true ->
     getConfig env argv
     = ([Log [Val (VStr "Please provide a --score when using --no-comment.")];
         Log [Val (VStr usage)]], Exit 1)).
Proof.
  intros Hcomment Hscore.
  apply score_missing_falsy in Hscore as (n & Hn & Hfalsy).
  assert (Husage : UsageError (getConfig env argv)).
  { destruct (argv_help argv) eqn:H1.
    { rewrite getConfig_help by assumption. repeat split. }
    destruct (truthy (index (argv_positional argv) 0)) eqn:H2.
    2: { rewrite getConfig_no_url by assumption. repeat split. }
    erewrite getConfig_no_score by eassumption. repeat split. }
  split; [exact Husage|]. split; [apply main_usage, Husage|].
  intros Hhelp Hurl. eapply getConfig_no_score; eassumption.
Qed.

(** C4. With no positional argument and no help flag, resolution prints
    that a URL is needed and the usage text, and exits with code 1,
    whatever the other options and the environment are: no configuration
    is produced and nothing is sent. *)
Theorem missing_url_is_usage_error argv :
  argv_positional argv = [] ->
  argv_help argv = false ->
  getConfig env argv
  = ([Log [Val (VStr "Please provide a url to test.")]; Log [Val (VStr usage)]], Exit 1)
  ∧ config_of (getConfig env argv) = None
  ∧ UsageError (main env fetch argv)
  ∧ exit_code (main env fetch argv) = 1.
Proof.
  intros Hpos Hhelp.
  assert (H : getConfig env argv
              = ([Log [Val (VStr "Please provide a url to test.")];
                  Log [Val (VStr usage)]], Exit 1)).
  { apply getConfig_no_url; [assumption|]. rewrite Hpos. reflexivity. }
  split; [exact H|]. split; [unfold config_of; rewrite H; reflexivity|].
  split.
  - apply main_usage. rewrite H. repeat split.
  - rewrite (main_exit _ _ _ H). reflexivity.
Qed.



(** C6 (as amended). A dispatch whose transport fails, or whose response
    body is not JSON, prints the failure and exits with code 1. When the
    body parses, the exit code is 0 if the body can be reported (for the
    wpt runner the body and its data are neither null nor missing and
    the target_url converts to a string; for the chrome runner the body
    is not null), and otherwise the failure is printed and the exit code
    is 1. A run that is skipped sends nothing and exits with code 0. *)
Theorem dispatch_exit_codes c :
  (fetch (request env c) = None ->
   run env fetch c
   = ([Fetch (request env c); Log [Val (VStr "Lighthouse CI failed"); Err FetchError]],
      Exit 1))
  ∧ (∀ resp, fetch (request env c) = Some resp -> json resp = None ->
     run env fetch c
     = ([Fetch (request env c); Log [Val (VStr "Lighthouse CI failed"); Err InvalidJson]],
        Exit 1))
  ∧ (∀ resp v, fetch (request env c) = Some resp -> json resp = Some v ->
     if reportable c v
     then exit_code (run env fetch c) = 0
     else run env fetch c
          = ([Fetch (request env c); Log [Val (VStr "Lighthouse CI failed"); Err TypeError]],
             Exit 1))
  ∧ (∀ argv, config_of (getConfig env argv) = Some c ->
     truthy (runLighthouse c) = false ->
     exit_code (main env fetch argv) = 0 ∧ requests (main env fetch argv) = []).
Proof.
  split; [apply run_rejected|]. split; [apply run_invalid_json|]. split.
  - intros resp v H1 H2. pose proof (run_parsed c resp v H1 H2) as H.
    destruct (reportable c v); [|exact H].
    destruct H as (line & ->). reflexivity.
  - intros argv Hc Hfalsy. apply config_of_ret in Hc.
    destruct (getConfig env argv) as [evs r] eqn:E. simpl in Hc. subst r.
    rewrite (main_ret _ _ _ E), Hfalsy. split; [reflexivity|].
    rewrite requests_warning, (requests_app _ (Ret c)), <- E, getConfig_requests.
    reflexivity.
Qed.

(** C7. With the chrome runner and a response object whose score is a
    number, the run prints that score and ends with exit code 0: the
    outcome is the same for every score and every minPassScore. *)
Theorem chrome_score_is_only_reported c resp props n :
  runner c = VStr RUNNERS_chrome ->
  fetch (request env c) = Some resp ->
  json resp = Some (VObj props) ->
  assoc "score" props = Some (VNum n) ->
  run env fetch c
  = ([Fetch (request env c); Log [Val (VStr "Lighthouse CI score:"); Val (VNum n)]],
     Ret tt)
  ∧ exit_code (run env fetch c) = 0.
Proof.
  intros Hrunner H1 H2 Hscore.
  assert (H : run env fetch c
              = ([Fetch (request env c);
                  Log [Val (VStr "Lighthouse CI score:"); Val (VNum n)]], Ret tt)).
  { eapply run_chrome_score; try eassumption.
    - rewrite Hrunner. reflexivity.
    - simpl. rewrite Hscore. reflexivity. }
  rewrite H. split; reflexivity.
Qed.

Lemma resolved_runner argv c :
  config_of (getConfig env argv) = Some c ->
  runner c = VStr RUNNERS_chrome ∨ runner c = VStr RUNNERS_wpt.
Proof.
  intros Hc. apply config_of_ret in Hc.
  pose proof (getConfig_ret_resolves _ _ Hc) as Hres.
  destruct (getConfig_resolved argv Hres) as (c' & text & Hc' & _ & _ & _ & _ & Hrunner & _).
  rewrite Hc' in Hc. simpl in Hc. injection Hc as <-.
  rewrite Hrunner. apply includes_runners.
  apply resolves_true in Hres as (_ & _ & _ & Hres). exact Hres.
Qed.

Lemma assign_format c :
  Object_assign [("format", VStr "json")] (config_props c)
  = ("format", VStr "json") :: config_props c.
Proof. reflexivity. Qed.

(** C8. A resolved configuration that dispatches sends one POST request,
    with the API key as the value of its X-API-KEY header. Its path is
    /run_on_wpt for the wpt runner and /run_on_chrome for the chrome
    runner. Its body is a JSON object text whose members are, in this
    order, testUrl, runLighthouse, addComment, minPassScore, runner, pr
    (number and sha) and repo (owner and name), each with the value the
    configuration holds, and before them a member format equal to json
    for the chrome runner only. *)
Theorem request_wire_contract argv c :
  config_of (getConfig env argv) = Some c ->
  truthy (runLighthouse c) = true ->
  requests (main env fetch argv) = [request env c]
  ∧ method (request env c) = "POST"
  ∧ assoc "X-API-KEY" (headers (request env c)) = Some (API_KEY env)
  ∧ ∃ path format,
      ((runner c = VStr RUNNERS_wpt ∧ path = "/run_on_wpt" ∧ format = [])
       ∨ (runner c = VStr RUNNERS_chrome ∧ path = "/run_on_chrome"
          ∧ format = [dq +:+ "format" +:+ dq +:+ ":" +:+ dq +:+ "json" +:+ dq]))
      ∧ endpoint (request env c) = CI_HOST env +:+ path
      ∧ body (request env c)
        = VStr ("{" +:+ join ","
                  (format
                   ++ json_member ("testUrl", testUrl c)
                   ++ json_member ("runLighthouse", runLighthouse c)
                   ++ json_member ("addComment", VBool (addComment c))
                   ++ json_member ("minPassScore", VNum (minPassScore c))
                   ++ json_member ("runner", runner c)
                   ++ json_member ("pr", VObj [("number", number (pr c));
                                               ("sha", sha (pr c))])
                   ++ json_member ("repo", VObj [("owner", owner (repo c));
                                                 ("name", name (repo c))]))
                +:+ "}").
Proof.
  intros Hc Hrun. pose proof (resolved_runner _ _ Hc) as Hrunner.
  apply config_of_ret in Hc.
  destruct (getConfig env argv) as [evs r] eqn:E. simpl in Hc. subst r.
  split.
  { rewrite (main_ret _ _ _ E), Hrun.
    rewrite requests_warning, (requests_app _ (Ret c) _ (snd (run env fetch c))).
    rewrite <- E, getConfig_requests. simpl.
    rewrite <- (run_requests c). destruct (run env fetch c); reflexivity. }
  split; [unfold request; destruct (strict_eq_str (runner c) RUNNERS_wpt); reflexivity|].
  split; [unfold request; destruct (strict_eq_str (runner c) RUNNERS_wpt); reflexivity|].
  destruct Hrunner as [Hrunner | Hrunner].
  - assert (Hwpt : strict_eq_str (runner c) RUNNERS_wpt = false)
      by (rewrite Hrunner; reflexivity).
    exists "/run_on_chrome", [dq +:+ "format" +:+ dq +:+ ":" +:+ dq +:+ "json" +:+ dq].
    split; [right; auto|]. unfold request. rewrite Hwpt, assign_format.
    split; [reflexivity|]. cbn [body]. unfold JSON_stringify, config_props.
    cbn [SerializeJSONProperty]. cbn [flat_map]. rewrite app_nil_r. reflexivity.
  - assert (Hwpt : strict_eq_str (runner c) RUNNERS_wpt = true)
      by (rewrite Hrunner; reflexivity).
    exists "/run_on_wpt", []. split; [left; auto|].
    unfold request. rewrite Hwpt.
    split; [reflexivity|]. cbn [body]. unfold JSON_stringify, config_props.
    cbn [SerializeJSONProperty]. cbn [flat_map]. rewrite app_nil_r. reflexivity.
Qed.

(** C9. When the variables TRAVIS and CIRCLECI are both set, the number
    and the sha of the pull request are read from CIRCLE_PR_NUMBER and
    CIRCLE_SHA1: the CircleCI block runs after the Travis block and
    overwrites what it stored, and a resolved configuration carries that
    identity. *)
Theorem circle_overwrites_travis :
  truthy (process_env env "TRAVIS") = true ->
  truthy (process_env env "CIRCLECI") = true ->
  getPrInfo env
  = {| number := VNum (parseInt (process_env env "CIRCLE_PR_NUMBER"));
       sha := process_env env "CIRCLE_SHA1" |}
  ∧ ∀ argv c, config_of (getConfig env argv) = Some c ->
      number (pr c) = VNum (parseInt (process_env env "CIRCLE_PR_NUMBER"))
      ∧ sha (pr c) = process_env env "CIRCLE_SHA1".
Proof.
  intros Htravis Hcircle.
  assert (H : getPrInfo env
              = {| number := VNum (parseInt (process_env env "CIRCLE_PR_NUMBER"));
                   sha := process_env env "CIRCLE_SHA1" |})
    by (unfold getPrInfo; rewrite Htravis, Hcircle; reflexivity).
  split; [exact H|].
  intros argv c Hc. apply config_of_ret in Hc.
  destruct (getConfig_resolved argv (getConfig_ret_resolves _ _ Hc))
    as (c' & text & Hc' & _ & _ & _ & _ & _ & Hpr & _).
  rewrite Hc' in Hc. simpl in Hc. injection Hc as <-.
  rewrite Hpr, H. split; reflexivity.
Qed.

Lemma json_not_undefined v : is_json v = true -> v ≠ VUndefined.
Proof. intros H ->. discriminate. Qed.

(** C10 (as amended). For the chrome runner, a response whose body parses
    as a JSON value other than null ends with exit code 0, and a value
    without a score property is printed as undefined; for the wpt runner,
    a response without a data property raises and ends with exit code 1. *)
Theorem chrome_tolerates_missing_score c resp v :
  fetch (request env c) = Some resp ->
  json resp = Some v ->
  is_json v = true ->
  (runner c = VStr RUNNERS_chrome -> v ≠ VNull ->
   ∃ score,
     run env fetch c
     = ([Fetch (request env c); Log [Val (VStr "Lighthouse CI score:"); Val score]],
        Ret tt)
     ∧ exit_code (run env fetch c) = 0
     ∧ (has_prop v "score" = false -> score = VUndefined))
  ∧ (runner c = VStr RUNNERS_wpt -> has_prop v "data" = false ->
     run env fetch c
     = ([Fetch (request env c); Log [Val (VStr "Lighthouse CI failed"); Err TypeError]],
        Exit 1)
     ∧ exit_code (run env fetch c) = 1).
Proof.
  intros H1 H2 Hjson. split.
  - intros Hrunner Hnull.
    assert (∃ score, get_prop v "score" = Some score
                     ∧ (has_prop v "score" = false -> score = VUndefined))
      as (score & Hscore & Hmissing).
    { exists (field v "score"). split; [|apply field_missing].
      rewrite get_prop_field. destruct v; try reflexivity; [discriminate | congruence]. }
    exists score.
    assert (H : run env fetch c
                = ([Fetch (request env c);
                    Log [Val (VStr "Lighthouse CI score:"); Val score]], Ret tt)).
    { eapply run_chrome_score; try eassumption. rewrite Hrunner. reflexivity. }
    rewrite H. repeat split. exact Hmissing.
  - intros Hrunner Hdata.
    assert (H : run env fetch c
                = ([Fetch (request env c);
                    Log [Val (VStr "Lighthouse CI failed"); Err TypeError]], Exit 1)).
    { eapply run_wpt_raises; try eassumption; [rewrite Hrunner; reflexivity|].
      rewrite get_prop_field. destruct (nullish v); [left; reflexivity|].
      right. left. exists VUndefined. split; [|reflexivity].
      rewrite (field_missing _ _ Hdata). reflexivity. }
    rewrite H. split; reflexivity.
Qed.
End Properties.

(** ** The properties on the example inputs *)

Section Instances.
Import Examples.

(** The built-in functions on a few inputs. *)
Example parseInt_digits : parseInt (VStr "34") = number_of_Z false 34.
Proof. reflexivity. Qed.

Example parseInt_prefix : parseInt (VStr "  -12abc") = number_of_Z false (-12).
Proof. reflexivity. Qed.

Example parseInt_false : parseInt (VStr "false") = NaN.
Proof. reflexivity. Qed.

Example parseInt_undefined : parseInt VUndefined = NaN.
Proof. reflexivity. Qed.

Example parseInt_negative_zero : parseInt (VStr "-0") = S754_zero true.
Proof. reflexivity. Qed.

Example split_slug : split "/" "ebidel/lighthouse-ci" = ["ebidel"; "lighthouse-ci"].
Proof. reflexivity. Qed.

Example split_url :
  split "/" "https://github.com/a/b" = ["https:"; ""; "github.com"; "a"; "b"].
Proof. reflexivity. Qed.

Example split_no_separator : index (VStr <$> split "/" "slug") 1 = VUndefined.
Proof. reflexivity. Qed.

Example stringify_pr :
  JSON_stringify (VObj [("number", VNum NaN); ("sha", VUndefined); ("ok", VBool true)])
  = VStr ("{" +:+ dq +:+ "number" +:+ dq +:+ ":null," +:+ dq +:+ "ok" +:+ dq +:+ ":true}").
Proof. reflexivity. Qed.

Example stringify_escapes :
  JSON_stringify (VArr [VStr (dq +:+ "\"); VUndefined; VNum (number_of_Z false 93)] [])
  = VStr ("[" +:+ dq +:+ "\" +:+ dq +:+ "\\" +:+ dq +:+ ",null,93]").
Proof. reflexivity. Qed.

(** The conversions of an object and of an array: a toString property of
    the object's own makes them raise, a valueOf property does not. *)
Example ToString_plain_object :
  ToString (VObj [("x", VNum (number_of_Z false 1))]) = Some "[object Object]".
Proof. reflexivity. Qed.

Example ToString_own_toString :
  ToString (VObj [("toString", VNum (number_of_Z false 1))]) = None.
Proof. reflexivity. Qed.

Example ToString_own_valueOf :
  ToString (VObj [("valueOf", VNum (number_of_Z false 1))]) = Some "[object Object]".
Proof. reflexivity. Qed.

Example ToString_array :
  ToString (VArr [VStr "a"; VNull; VUndefined; VArr [VBool true; VStr "b"] []] [])
  = Some "a,,,true,b".
Proof. reflexivity. Qed.

Example ToString_array_raises :
  ToString (VArr [VStr "a"; VObj [("toString", VNull)]] []) = None.
Proof. reflexivity. Qed.

(** [--score=1 --score=2 --score.toString=3]: an array with a toString
    property of its own does not convert either. *)
Example Number_array_own_toString :
  Number (VArr [VNum (number_of_Z false 1); VNum (number_of_Z false 2)]
               [("toString", VArr [VUndefined; VNum (number_of_Z false 3)] [])])
  = None.
Proof. reflexivity. Qed.

Example ToString_array_own_join :
  ToString (VArr [VStr "a"] [("join", VNum (number_of_Z false 1))]) = Some "[object Array]".
Proof. reflexivity. Qed.

Example Number_own_toString :
  Number (VObj [("toString", VNum (number_of_Z false 1))]) = None.
Proof. reflexivity. Qed.

Example Number_absent : Number VUndefined = Some NaN.
Proof. reflexivity. Qed.

(** A Travis pull-request build is dispatched to the chrome runner and
    the score that comes back is printed. *)
Example travis_build_runs :
  main env_travis (fetch_score 95) argv_url
  = ([Log [Val (VStr "Using runner: chrome")];
      Log [Val (VStr "ENV:"); Val VUndefined; Val VUndefined];
      Log [Val (VStr "Slug:"); Val (VStr "ebidel"); Val (VStr "lighthouse-ci")];
      Fetch (request env_travis config_travis);
      Log [Val (VStr "Lighthouse CI score:"); Val (VNum (number_of_Z false 95))]],
     Ret tt).
Proof. reflexivity. Qed.

(** The wpt runner prints the target URL of the response. *)
Example wpt_build_runs :
  run ∅ fetch_target_url config_wpt
  = ([Fetch (request ∅ config_wpt);
      Log [Val (VStr "Started Lighthouse run on WebPageTest: http://x")]],
     Ret tt).
Proof. reflexivity. Qed.

(** A score that is an object with a toString property ends the process
    at [Number(argv.score)]: nothing is printed, nothing is sent. *)
Example score_object_is_uncaught :
  main ∅ (fetch_score 95) argv_score_object_all_builds = ([], Uncaught TypeError).
Proof. reflexivity. Qed.

Lemma non_pr_build_is_skipped_witness :
  resolves argv_url = true
  ∧ argv_pr argv_url = true
  ∧ (∅ : gmap string string) !! "TRAVIS_EVENT_TYPE" ≠ Some "pull_request"
  ∧ (∅ : gmap string string) !! "CIRCLE_PULL_REQUEST" = None
  ∧ ∃ c, config_of (getConfig ∅ argv_url) = Some c
         ∧ runLighthouse c = VUndefined
         ∧ truthy (runLighthouse c) = false
         ∧ requests (main ∅ fetch_down argv_url) = []
         ∧ last (trace (main ∅ fetch_down argv_url)) = Some skipped
         ∧ exit_code (main ∅ fetch_down argv_url) = 0.
Proof.
  assert (H : (∅ : gmap string string) !! "TRAVIS_EVENT_TYPE" ≠ Some "pull_request")
    by discriminate.
  repeat (split; [first [reflexivity | exact H]|]).
  apply (non_pr_build_is_skipped ∅ fetch_down argv_url);
    first [reflexivity | exact H].
Defined.

(** C1, as stated, fails twice. On [runLighthouse.js] run with no argument
    in a build that is not a pull request, the pr flag is true and neither
    variable is set, yet the process prints the usage text and exits with
    code 1 instead of 0. And on [runLighthouse.js https://example.com] in
    such a build, the runLighthouse that resolution yields is undefined,
    not false: the object sent to JSON.stringify would not have the
    property at all. *)
Lemma non_pr_build_counterexample :
  argv_pr argv_bare = true
  ∧ argv_pr argv_url = true
  ∧ (∅ : gmap string string) !! "TRAVIS_EVENT_TYPE" = None
  ∧ (∅ : gmap string string) !! "CIRCLE_PULL_REQUEST" = None
  ∧ main ∅ fetch_down argv_bare
    = ([Log [Val (VStr "Please provide a url to test.")]; Log [Val (VStr usage)]], Exit 1)
  ∧ exit_code (main ∅ fetch_down argv_bare) = 1
  ∧ runLighthouse <$> config_of (getConfig ∅ argv_url) = Some VUndefined
  ∧ SerializeJSONProperty (VObj [("runLighthouse", VUndefined)]) = Some "{}"
  ∧ SerializeJSONProperty (VObj [("runLighthouse", VBool false)])
    = Some ("{" +:+ quoted "runLighthouse" +:+ ":false}").
Proof. repeat split. Qed.

Lemma pr_false_always_runs_witness :
  argv_pr argv_all_builds = false
  ∧ (∀ c, config_of (getConfig env_travis argv_all_builds) = Some c ->
          runLighthouse c = VBool true)
  ∧ (resolves argv_all_builds = true ->
     ∃ c, config_of (getConfig env_travis argv_all_builds) = Some c).
Proof.
  split; [reflexivity|].
  apply (pr_false_always_runs env_travis argv_all_builds). reflexivity.
Defined.

Lemma no_comment_needs_score_witness :
  argv_comment argv_no_comment = false
  ∧ score_missing argv_no_comment
  ∧ UsageError (getConfig ∅ argv_no_comment)
  ∧ UsageError (main ∅ fetch_down argv_no_comment)
  ∧ (argv_help argv_no_comment = false ->
     truthy (index (argv_positional argv_no_comment) 0) = true ->
     getConfig ∅ argv_no_comment
     = ([Log [Val (VStr "Please provide a --score when using --no-comment.")];
         Log [Val (VStr usage)]], Exit 1)).
Proof.
  split; [reflexivity|]. split; [left; reflexivity|].
  apply (no_comment_needs_score ∅ fetch_down argv_no_comment);
    [reflexivity | left; reflexivity].
Defined.

Lemma missing_url_is_usage_error_witness :
  argv_positional argv_bare = []
  ∧ argv_help argv_bare = false
  ∧ getConfig env_travis argv_bare
    = ([Log [Val (VStr "Please provide a url to test.")]; Log [Val (VStr usage)]], Exit 1)
  ∧ config_of (getConfig env_travis argv_bare) = None
  ∧ UsageError (main env_travis fetch_down argv_bare)
  ∧ exit_code (main env_travis fetch_down argv_bare) = 1.
Proof.
  split; [reflexivity|]. split; [reflexivity|].
  apply (missing_url_is_usage_error env_travis fetch_down argv_bare); reflexivity.
Defined.



Lemma dispatch_exit_codes_witness :
  (fetch_down (request ∅ config_chrome) = None
   ∧ run ∅ fetch_down config_chrome
     = ([Fetch (request ∅ config_chrome);
         Log [Val (VStr "Lighthouse CI failed"); Err FetchError]], Exit 1))
  ∧ run ∅ fetch_not_json config_chrome
    = ([Fetch (request ∅ config_chrome);
        Log [Val (VStr "Lighthouse CI failed"); Err InvalidJson]], Exit 1)
  ∧ (reportable config_wpt (VObj [("data", VObj [("target_url", VStr "http://x")])]) = true
     ∧ exit_code (run ∅ fetch_target_url config_wpt) = 0)
  ∧ (reportable config_chrome (VObj [("score", VNum (number_of_Z false 95))]) = true
     ∧ exit_code (run ∅ (fetch_score 95) config_chrome) = 0)
  ∧ (reportable config_wpt
       (VObj [("data", VObj [("target_url",
                              VObj [("toString", VNum (number_of_Z false 1))])])])
     = false
     ∧ run ∅ fetch_target_url_object config_wpt
       = ([Fetch (request ∅ config_wpt);
           Log [Val (VStr "Lighthouse CI failed"); Err TypeError]], Exit 1))
  ∧ (truthy (runLighthouse (resolved_or config_chrome ∅ argv_url)) = false
     ∧ exit_code (main ∅ fetch_down argv_url) = 0
     ∧ requests (main ∅ fetch_down argv_url) = []).
Proof.
  split; [split; [reflexivity|]|].
  { apply (proj1 (dispatch_exit_codes ∅ fetch_down config_chrome)). reflexivity. }
  split.
  { apply (proj1 (proj2 (dispatch_exit_codes ∅ fetch_not_json config_chrome))
             {| json := None |}); reflexivity. }
  split; [split; [reflexivity|]|].
  { apply (proj1 (proj2 (proj2 (dispatch_exit_codes ∅ fetch_target_url config_wpt)))
             _ _ eq_refl eq_refl). }
  split; [split; [reflexivity|]|].
  { apply (proj1 (proj2 (proj2 (dispatch_exit_codes ∅ (fetch_score 95) config_chrome)))
             _ _ eq_refl eq_refl). }
  split; [split; [reflexivity|]|].
  { apply (proj1 (proj2 (proj2 (dispatch_exit_codes ∅ fetch_target_url_object config_wpt)))
             _ _ eq_refl eq_refl). }
  split; [reflexivity|].
  apply (proj2 (proj2 (proj2 (dispatch_exit_codes ∅ fetch_down
                                (resolved_or config_chrome ∅ argv_url))))
           argv_url); reflexivity.
Defined.

(** C6, as stated, fails when the transport works and the body parses but
    cannot be reported: the wpt runner on the body [{}], which has no
    data, and the chrome runner on the body [null], both print the
    failure and exit with code 1. *)
Lemma dispatch_exit_codes_counterexample :
  fetch_empty_object (request ∅ config_wpt) = Some {| json := Some (VObj []) |}
  ∧ run ∅ fetch_empty_object config_wpt
    = ([Fetch (request ∅ config_wpt);
        Log [Val (VStr "Lighthouse CI failed"); Err TypeError]], Exit 1)
  ∧ exit_code (run ∅ fetch_empty_object config_wpt) = 1
  ∧ fetch_null (request ∅ config_chrome) = Some {| json := Some VNull |}
  ∧ exit_code (run ∅ fetch_null config_chrome) = 1.
Proof. repeat split. Qed.

(** A score of 50 against a minPassScore of 93. *)
Lemma chrome_score_is_only_reported_witness :
  runner config_chrome = VStr RUNNERS_chrome
  ∧ minPassScore config_chrome = number_of_Z false 93
  ∧ run ∅ (fetch_score 50) config_chrome
    = ([Fetch (request ∅ config_chrome);
        Log [Val (VStr "Lighthouse CI score:"); Val (VNum (number_of_Z false 50))]],
       Ret tt)
  ∧ exit_code (run ∅ (fetch_score 50) config_chrome) = 0.
Proof.
  split; [reflexivity|]. split; [reflexivity|].
  apply (chrome_score_is_only_reported ∅ (fetch_score 50) config_chrome
           {| json := Some (VObj [("score", VNum (number_of_Z false 50))]) |}
           [("score", VNum (number_of_Z false 50))]);
    reflexivity.
Defined.

(** The request of a Travis pull-request build, body included. *)
Lemma request_wire_contract_witness :
  config_of (getConfig env_travis argv_url) = Some config_travis
  ∧ truthy (runLighthouse config_travis) = true
  ∧ requests (main env_travis (fetch_score 95) argv_url) = [request env_travis config_travis]
  ∧ method (request env_travis config_travis) = "POST"
  ∧ endpoint (request env_travis config_travis)
    = "https://lighthouse-ci.appspot.com/run_on_chrome"
  ∧ assoc "X-API-KEY" (headers (request env_travis config_travis)) = Some (VStr "secret")
  ∧ body (request env_travis config_travis) = VStr body_travis.
Proof.
  split; [reflexivity|]. split; [reflexivity|].
  destruct (request_wire_contract env_travis (fetch_score 95) argv_url config_travis)
    as (H1 & H2 & H3 & path & format & Hcase & Hendpoint & Hbody);
    [reflexivity | reflexivity |].
  split; [exact H1|]. split; [exact H2|].
  destruct Hcase as [(Hwpt & _) | (_ & -> & ->)]; [discriminate Hwpt|].
  split; [exact Hendpoint|]. split; [exact H3 | exact Hbody].
Defined.

(** Travis says pull request 12 at abc123, CircleCI says 34 at def456. *)
Lemma circle_overwrites_travis_witness :
  env_both !! "TRAVIS_PULL_REQUEST" = Some "12"
  ∧ env_both !! "TRAVIS_PULL_REQUEST_SHA" = Some "abc123"
  ∧ truthy (process_env env_both "TRAVIS") = true
  ∧ truthy (process_env env_both "CIRCLECI") = true
  ∧ getPrInfo env_both = {| number := VNum (number_of_Z false 34); sha := VStr "def456" |}.
Proof.
  repeat (split; [reflexivity|]).
  apply (proj1 (circle_overwrites_travis env_both eq_refl eq_refl)).
Defined.

Lemma chrome_tolerates_missing_score_witness :
  runner config_chrome = VStr RUNNERS_chrome
  ∧ is_json (VObj []) = true
  ∧ ∃ score,
      run ∅ fetch_empty_object config_chrome
      = ([Fetch (request ∅ config_chrome);
          Log [Val (VStr "Lighthouse CI score:"); Val score]], Ret tt)
      ∧ exit_code (run ∅ fetch_empty_object config_chrome) = 0
      ∧ (has_prop (VObj []) "score" = false -> score = VUndefined).
Proof.
  split; [reflexivity|]. split; [reflexivity|].
  apply (proj1 (chrome_tolerates_missing_score ∅ fetch_empty_object config_chrome
                  {| json := Some (VObj []) |} (VObj []) eq_refl eq_refl eq_refl));
    [reflexivity | discriminate].
Defined.

(** C10, as stated, fails on a response whose body is the JSON text
    [null]: it parses, [json.score] raises on it, and the chrome run ends
    with exit code 1. *)
Lemma chrome_null_body_counterexample :
  runner config_chrome = VStr RUNNERS_chrome
  ∧ fetch_null (request ∅ config_chrome) = Some {| json := Some VNull |}
  ∧ is_json VNull = true
  ∧ run ∅ fetch_null config_chrome
    = ([Fetch (request ∅ config_chrome);
        Log [Val (VStr "Lighthouse CI failed"); Err TypeError]], Exit 1)
  ∧ exit_code (run ∅ fetch_null config_chrome) = 1.
Proof. repeat split. Qed.
End Instances.

(** ** Further properties of the program *)

Section Further.
Context {rt : JsRuntime}.
Variable env : gmap string string.
Variable fetch : Request -> option Response.

(** The configuration [getConfig] returns, field by field. *)
Lemma getConfig_value argv c :
  config_of (getConfig env argv) = Some c ->
  c = {| testUrl := index (argv_positional argv) 0;
         runLighthouse :=
           js_or (VBool (negb (argv_pr argv)))
             (js_and (VBool (argv_pr argv))
                (js_or (VBool (strict_eq_str (process_env env "TRAVIS_EVENT_TYPE")
                                 "pull_request"))
                       (process_env env "CIRCLE_PULL_REQUEST")));
         addComment := argv_comment argv;
         minPassScore := minPassScore c;
         runner := js_or (argv_runner argv) (VStr RUNNERS_chrome);
         pr := getPrInfo env;
         repo :=
           let repoSlug :=
             js_or (js_or (process_env env "TRAVIS_PULL_REQUEST_SLUG")
                          (process_env env "CIRCLE_PULL_REQUEST"))
                   (process_env env "CIRCLE_REPOSITORY_URL") in
           {| owner := if truthy repoSlug then slug_part repoSlug 0 else VNull;
              name := if truthy repoSlug then slug_part repoSlug 1 else VNull |} |}.
Proof.
  intros Hc. apply config_of_ret in Hc.
  pose proof (getConfig_ret_resolves _ _ _ Hc) as Hres.
  apply resolves_true in Hres as (H1 & H2 & (n & Hn & H3) & H4).
  assert (∃ text, js_or (argv_runner argv) (VStr RUNNERS_chrome) = VStr text)
    as (text & Htext)
    by (destruct (includes_runners _ H4) as [-> | ->]; eauto).
  unfold getConfig, to_number, to_string in Hc. rewrite H1, H2, Hn in Hc.
  cbn -[includes ToString js_or Object_keys] in Hc.
  replace (negb (argv_comment argv) && negb (number_truthy n))
    with false in Hc by (rewrite <- negb_orb, H3; reflexivity).
  cbn -[includes ToString js_or Object_keys] in Hc. rewrite H4 in Hc.
  rewrite Htext in Hc |- *. cbn in Hc. injection Hc as <-. reflexivity.
Qed.

(** What [main] sends: the request of the resolved configuration when its
    gate is open, and nothing otherwise. *)
Lemma main_requests argv :
  requests (main env fetch argv)
  = match config_of (getConfig env argv) with
    | Some c => if truthy (runLighthouse c) then [request env c] else []
    | None => []
    end.
Proof.
  unfold config_of. destruct (getConfig env argv) as [evs [c | code | e]] eqn:E; simpl.
  3: { rewrite (main_uncaught _ _ _ _ _ E), requests_warning.
       pose proof (getConfig_requests env argv) as G. rewrite E in G. exact G. }
  - rewrite (main_ret _ _ _ _ _ E).
    destruct (truthy (runLighthouse c)).
    + rewrite requests_warning, (requests_app _ (Ret c) _ (snd (run env fetch c))).
      rewrite <- E, getConfig_requests. simpl.
      rewrite <- (run_requests env fetch c). destruct (run env fetch c); reflexivity.
    + rewrite requests_warning, (requests_app _ (Ret c)), <- E, getConfig_requests.
      reflexivity.
  - rewrite (main_exit _ _ _ _ _ E), requests_warning.
    pose proof (getConfig_requests env argv) as G. rewrite E in G. exact G.
Qed.

(** [run] ends normally or with exit code 1, after the request and one line. *)
Lemma run_shape c :
  ∃ line, trace (run env fetch c) = [Fetch (request env c); Log line]
    ∧ ((snd (run env fetch c) = Exit 1
        ∧ ∃ err, line = [Val (VStr "Lighthouse CI failed"); Err err])
       ∨ (snd (run env fetch c) = Ret tt
          ∧ ((∃ score, line = [Val (VStr "Lighthouse CI score:"); Val score])
             ∨ ∃ text, line = [Val (VStr text)]))).
Proof.
  destruct (fetch (request env c)) as [resp|] eqn:H1.
  2: { rewrite run_rejected by assumption. eexists. split; [reflexivity|]. left. eauto. }
  destruct (json resp) as [v|] eqn:H2.
  2: { erewrite run_invalid_json by eassumption.
       eexists. split; [reflexivity|]. left. eauto. }
  destruct (strict_eq_str (runner c) RUNNERS_wpt) eqn:H3.
  - destruct (get_prop v "data") as [data|] eqn:H4.
    2: { erewrite run_wpt_raises by eauto. eexists. split; [reflexivity|]. left. eauto. }
    destruct (get_prop data "target_url") as [u|] eqn:H5.
    2: { erewrite run_wpt_raises by eauto. eexists. split; [reflexivity|]. left. eauto. }
    destruct (ToString u) as [text|] eqn:H6.
    + erewrite run_wpt_target_url by eassumption.
      eexists. split; [reflexivity|]. right. eauto.
    + erewrite run_wpt_raises by eauto 7. eexists. split; [reflexivity|]. left. eauto.
  - destruct (get_prop v "score") as [score|] eqn:H4.
    + erewrite run_chrome_score by eassumption.
      eexists. split; [reflexivity|]. right. eauto.
    + erewrite run_chrome_raises by eassumption.
      eexists. split; [reflexivity|]. left. eauto.
Qed.

(** X1. With the help flag, the program prints the usage text (after the
    deprecation warning, if there is one) and nothing else, exits with
    code 1 and sends nothing, whatever the other options are. *)
Theorem help_prints_usage_only argv :
  argv_help argv = true ->
  main env fetch argv = (deprecation_warning env ++ [Log [Val (VStr usage)]], Exit 1)
  ∧ requests (main env fetch argv) = []
  ∧ exit_code (main env fetch argv) = 1.
Proof.
  intros Hhelp.
  pose proof (main_exit env fetch argv _ _ (getConfig_help env argv Hhelp)) as H.
  rewrite H. split; [reflexivity|]. split; [|reflexivity].
  rewrite requests_warning. reflexivity.
Qed.

(** X3. The gate of a resolved configuration is open exactly when the pr
    flag is false, or TRAVIS_EVENT_TYPE is pull_request, or
    CIRCLE_PULL_REQUEST is set to a non-empty string. *)
Theorem gate_open_iff argv c :
  config_of (getConfig env argv) = Some c ->
  truthy (runLighthouse c)
  = negb (argv_pr argv)
    || strict_eq_str (process_env env "TRAVIS_EVENT_TYPE") "pull_request"
    || truthy (process_env env "CIRCLE_PULL_REQUEST").
Proof.
  intros Hc. rewrite (getConfig_value _ _ Hc). simpl.
  destruct (argv_pr argv); simpl; [|reflexivity].
  destruct (strict_eq_str (process_env env "TRAVIS_EVENT_TYPE") "pull_request");
    simpl; [reflexivity|].
  unfold js_or. simpl. reflexivity.
Qed.

(** X4. On CircleCI the gate is not a boolean: with the pr flag true,
    no Travis pull-request event and CIRCLE_PULL_REQUEST set to a
    non-empty string, the runLighthouse field of the configuration is
    that string, and the configuration is dispatched. *)
Theorem circle_gate_is_the_pull_request_url argv c u :
  config_of (getConfig env argv) = Some c ->
  argv_pr argv = true ->
  env !! "TRAVIS_EVENT_TYPE" ≠ Some "pull_request" ->
  env !! "CIRCLE_PULL_REQUEST" = Some u ->
  u ≠ "" ->
  runLighthouse c = VStr u
  ∧ requests (main env fetch argv) = [request env c].
Proof.
  intros Hc Hpr Htravis Hcircle Hu.
  assert (Hrun : runLighthouse c = VStr u).
  { rewrite (getConfig_value _ _ Hc). simpl.
    rewrite Hpr, (not_pull_request env Htravis). unfold process_env. rewrite Hcircle.
    unfold js_or, js_and. reflexivity. }
  split; [exact Hrun|].
  rewrite main_requests, Hc, Hrun. simpl.
  apply String.eqb_neq in Hu. rewrite Hu. reflexivity.
Qed.

(** X5. An invocation sends at most one request, and its exit code is 0
    or 1. *)
Theorem at_most_one_request argv :
  (length (requests (main env fetch argv)) <= 1)%nat
  ∧ (exit_code (main env fetch argv) = 0 ∨ exit_code (main env fetch argv) = 1).
Proof.
  split.
  - rewrite main_requests. destruct (config_of (getConfig env argv)) as [c|]; simpl.
    + destruct (truthy (runLighthouse c)); simpl; lia.
    + lia.
  - destruct (resolves argv) eqn:Hres.
    + destruct (getConfig_resolved env argv Hres) as (c & text & Hc & _).
      rewrite (main_ret _ _ _ _ _ Hc).
      destruct (truthy (runLighthouse c)); [|left; reflexivity].
      destruct (run_shape c) as (line & _ & [[H _] | [H _]]);
        unfold exit_code; simpl; rewrite H; auto.
    + right. apply (main_rejects env fetch argv Hres).
Qed.

(** X6. A dispatch leaves the request and exactly one printed line, and
    it exits with code 1 exactly when that line is the failure report. *)
Theorem run_sends_once_prints_once c :
  ∃ line, trace (run env fetch c) = [Fetch (request env c); Log line]
    ∧ (exit_code (run env fetch c) = 1
       ↔ ∃ err, line = [Val (VStr "Lighthouse CI failed"); Err err]).
Proof.
  destruct (run_shape c) as (line & Htrace & Hcases).
  exists line. split; [exact Htrace|].
  unfold exit_code.
  destruct Hcases as [[H Hline] | [H Hline]]; rewrite H; simpl.
  - split; [intros _; exact Hline | reflexivity].
  - split; [discriminate|].
    intros [err ->]. destruct Hline as [[score Hline] | [text Hline]]; discriminate.
Qed.

(** X2. A usage error does not look at the environment: when a check of
    the command line fails, the same lines are printed and the same code
    is returned in every environment, and at most one line comes before
    the usage text. *)
Theorem usage_errors_ignore_environment env' argv :
  resolves argv = false ->
  getConfig env argv = getConfig env' argv
  ∧ (length (trace (getConfig env argv)) <= 2)%nat.
Proof.
  unfold resolves. intros H.
  destruct (argv_help argv) eqn:H1.
  { rewrite (getConfig_help env), (getConfig_help env') by assumption.
    split; [reflexivity | simpl; lia]. }
  destruct (truthy (index (argv_positional argv) 0)) eqn:H2.
  2: { rewrite (getConfig_no_url env), (getConfig_no_url env') by assumption.
       split; [reflexivity | simpl; lia]. }
  destruct (Number (argv_score argv)) as [n|] eqn:Hn.
  2: { rewrite (getConfig_score_raises env), (getConfig_score_raises env') by assumption.
       split; [reflexivity | simpl; lia]. }
  destruct (argv_comment argv || number_truthy n) eqn:H3.
  2: { apply orb_false_elim in H3 as [H3 H3'].
       rewrite (getConfig_no_score env _ n), (getConfig_no_score env' _ n) by assumption.
       split; [reflexivity | simpl; lia]. }
  simpl in H.
  destruct (ToString (js_or (argv_runner argv) (VStr RUNNERS_chrome))) as [text|] eqn:H5.
  - rewrite (getConfig_unknown_runner env _ n text),
      (getConfig_unknown_runner env' _ n text) by assumption.
    split; [reflexivity | simpl; lia].
  - rewrite (getConfig_runner_raises env _ n), (getConfig_runner_raises env' _ n)
      by assumption.
    split; [reflexivity | simpl; lia].
Qed.

(** X7. Without CircleCI, the pull request of a resolved configuration is
    Travis's when TRAVIS is set, and stays null/null when it is not. *)
Theorem pr_identity_without_circle argv c :
  config_of (getConfig env argv) = Some c ->
  truthy (process_env env "CIRCLECI") = false ->
  pr c = if truthy (process_env env "TRAVIS")
         then {| number := VNum (parseInt (process_env env "TRAVIS_PULL_REQUEST"));
                 sha := process_env env "TRAVIS_PULL_REQUEST_SHA" |}
         else {| number := VNull; sha := VNull |}.
Proof.
  intros Hc Hcircle. rewrite (getConfig_value _ _ Hc). simpl.
  unfold getPrInfo. rewrite Hcircle. reflexivity.
Qed.

Lemma parse_integer_no_digit s :
  starts_with_digit s = false -> parse_integer s = NaN.
Proof.
  unfold starts_with_digit, parse_integer.
  destruct (trimStart s) as [|c r]; [reflexivity|].
  assert (Hplain : ∀ s, match s with
                        | String d _ => bool_decide (is_Some (digit d))
                        | EmptyString => false
                        end = false -> digits s None = None).
  { intros [|d s']; [reflexivity|]. simpl.
    destruct (digit d); [discriminate | reflexivity]. }
  destruct c as [[] [] [] [] [] [] [] []]; simpl;
    try discriminate; try (intros _; reflexivity);
    intros H; apply Hplain in H; rewrite H; reflexivity.
Qed.

(** X8. When the provider's pull-request number does not start with a
    digit (Travis writes the word false on a push build) or is not set
    at all, the number of the pull request is NaN, which the request body
    carries as null. *)
Theorem pr_number_without_digits argv c :
  config_of (getConfig env argv) = Some c ->
  truthy (process_env env "TRAVIS") = true ->
  truthy (process_env env "CIRCLECI") = false ->
  (∀ s, env !! "TRAVIS_PULL_REQUEST" = Some s -> starts_with_digit s = false) ->
  number (pr c) = VNum NaN
  ∧ SerializeJSONProperty (number (pr c)) = Some "null".
Proof.
  intros Hc Htravis Hcircle Hdigit.
  assert (H : number (pr c) = VNum NaN).
  { rewrite (getConfig_value _ _ Hc). simpl. unfold getPrInfo.
    rewrite Htravis, Hcircle. simpl. unfold parseInt, process_env.
    destruct (env !! "TRAVIS_PULL_REQUEST") as [s|] eqn:Hs; simpl;
      [rewrite (parse_integer_no_digit s (Hdigit s eq_refl)) | ]; reflexivity. }
  rewrite H. split; reflexivity.
Qed.

(** [split] on a text without separator, and on a first piece. *)
Lemma split_nonempty sep s : split sep s ≠ [].
Proof.
  destruct s as [|c rest]; simpl; [discriminate|].
  destruct (Ascii.eqb c sep); [discriminate|].
  destruct (split sep rest); discriminate.
Qed.

Lemma split_no_char sep s : no_char sep s = true -> split sep s = [s].
Proof.
  induction s as [|c rest IH]; simpl; [reflexivity|].
  intros H. apply andb_prop in H as [H1 H2]. apply negb_true_iff in H1.
  rewrite H1, (IH H2). reflexivity.
Qed.

Lemma split_first sep a t :
  no_char sep a = true -> split sep (a +:+ String sep t) = a :: split sep t.
Proof.
  induction a as [|c rest IH]; simpl.
  - intros _. rewrite Ascii.eqb_refl. reflexivity.
  - intros H. apply andb_prop in H as [H1 H2]. apply negb_true_iff in H1.
    rewrite H1, (IH H2). reflexivity.
Qed.

Lemma js_or_truthy a b : truthy a = true -> js_or a b = a.
Proof. intros H. unfold js_or. rewrite H. reflexivity. Qed.

Lemma js_or_falsy a b : truthy a = false -> js_or a b = b.
Proof. intros H. unfold js_or. rewrite H. reflexivity. Qed.

Lemma truthy_append a c t : truthy (VStr (a +:+ String c t)) = true.
Proof. destruct a; reflexivity. Qed.

(** X9. A Travis slug owner/name gives the owner and the name of the
    repository, whatever the CircleCI variables hold: the Travis variable
    is looked at first. *)
Theorem repo_from_travis_slug argv c a b :
  config_of (getConfig env argv) = Some c ->
  env !! "TRAVIS_PULL_REQUEST_SLUG" = Some (a +:+ "/" +:+ b) ->
  no_char "/" a = true ->
  no_char "/" b = true ->
  owner (repo c) = VStr a ∧ name (repo c) = VStr b.
Proof.
  intros Hc Hslug Ha Hb. rewrite (getConfig_value _ _ Hc). simpl.
  change (a +:+ "/" +:+ b) with (a +:+ String "/" b) in Hslug.
  assert (Hp : process_env env "TRAVIS_PULL_REQUEST_SLUG" = VStr (a +:+ String "/" b))
    by (unfold process_env; rewrite Hslug; reflexivity).
  rewrite Hp, !(js_or_truthy (VStr (a +:+ String "/" b))), !truthy_append
    by apply truthy_append.
  unfold slug_part. rewrite (split_first _ _ _ Ha), (split_no_char _ _ Hb).
  split; reflexivity.
Qed.

Lemma split_scheme scheme rest :
  no_char "/" scheme = true ->
  split "/" (scheme +:+ "://" +:+ rest) = (scheme +:+ ":") :: "" :: split "/" rest.
Proof.
  induction scheme as [|c s IH]; simpl; [reflexivity|].
  intros H. apply andb_prop in H as [H1 H2]. apply negb_true_iff in H1.
  rewrite H1, (IH H2). reflexivity.
Qed.

(** X10. When the slug is taken from CIRCLE_PULL_REQUEST, which holds a
    URL, the owner is the scheme with its colon and the name is the empty
    string: the pieces before and after the first slash of scheme://. *)
Theorem repo_from_pull_request_url argv c scheme rest :
  config_of (getConfig env argv) = Some c ->
  truthy (process_env env "TRAVIS_PULL_REQUEST_SLUG") = false ->
  env !! "CIRCLE_PULL_REQUEST" = Some (scheme +:+ "://" +:+ rest) ->
  no_char "/" scheme = true ->
  owner (repo c) = VStr (scheme +:+ ":") ∧ name (repo c) = VStr "".
Proof.
  intros Hc Hslug Hurl Hscheme. rewrite (getConfig_value _ _ Hc). simpl.
  assert (Hp : process_env env "CIRCLE_PULL_REQUEST" = VStr (scheme +:+ "://" +:+ rest))
    by (unfold process_env; rewrite Hurl; reflexivity).
  assert (Ht : truthy (VStr (scheme +:+ "://" +:+ rest)) = true)
    by apply (truthy_append scheme ":" ("//" +:+ rest)).
  rewrite !(js_or_falsy _ _ Hslug), Hp, !(js_or_truthy _ _ Ht), !Ht.
  unfold slug_part. rewrite (split_scheme _ _ Hscheme). split; reflexivity.
Qed.

(** X11. A slug without a slash is the owner, and the name is undefined
    (not null); with none of the three slug variables set to a non-empty
    string, owner and name are both null. *)
Theorem repo_without_slash argv c :
  config_of (getConfig env argv) = Some c ->
  (∀ s, env !! "TRAVIS_PULL_REQUEST_SLUG" = Some s -> s ≠ "" -> no_char "/" s = true ->
        owner (repo c) = VStr s ∧ name (repo c) = VUndefined)
  ∧ (truthy (process_env env "TRAVIS_PULL_REQUEST_SLUG") = false ->
     truthy (process_env env "CIRCLE_PULL_REQUEST") = false ->
     truthy (process_env env "CIRCLE_REPOSITORY_URL") = false ->
     owner (repo c) = VNull ∧ name (repo c) = VNull).
Proof.
  intros Hc. rewrite (getConfig_value _ _ Hc). simpl. split.
  - intros s Hslug Hs Hslash.
    assert (Hp : process_env env "TRAVIS_PULL_REQUEST_SLUG" = VStr s)
      by (unfold process_env; rewrite Hslug; reflexivity).
    assert (Ht : truthy (VStr s) = true)
      by (simpl; apply negb_true_iff, String.eqb_neq, Hs).
    rewrite Hp, !(js_or_truthy _ _ Ht), !Ht.
    unfold slug_part. rewrite (split_no_char _ _ Hslash). split; reflexivity.
  - intros H1 H2 H3.
    rewrite !(js_or_falsy _ _ H1), !(js_or_falsy _ _ H2), !H3. split; reflexivity.
Qed.

Lemma join_first_char sep c piece pieces :
  join sep (String c piece :: pieces) = String c (join sep (piece :: pieces)).
Proof. destruct pieces; reflexivity. Qed.

Lemma join_empty_first sep c pieces :
  pieces ≠ [] -> join (String c sep) ("" :: pieces) = String c (sep +:+ join (String c sep) pieces).
Proof. destruct pieces; [contradiction | reflexivity]. Qed.

(** X12. Joining the pieces of [split] with the separator gives the text
    back. *)
Theorem join_split sep s : join (String sep "") (split sep s) = s.
Proof.
  induction s as [|c rest IH]; simpl; [reflexivity|].
  pose proof (split_nonempty sep rest) as Hnil.
  destruct (Ascii.eqb_spec c sep) as [-> | Hne].
  - rewrite (join_empty_first "" sep _ Hnil). simpl. rewrite IH. reflexivity.
  - destruct (split sep rest) as [|piece pieces]; [contradiction|].
    rewrite join_first_char, IH. reflexivity.
Qed.

Lemma main_trace_warning argv :
  ∃ rest, trace (main env fetch argv) = deprecation_warning env ++ rest.
Proof.
  destruct (getConfig env argv) as [evs [c | code | e]] eqn:E.
  - rewrite (main_ret _ _ _ _ _ E). destruct (truthy (runLighthouse c)); eexists; reflexivity.
  - rewrite (main_exit _ _ _ _ _ E). eexists; reflexivity.
  - rewrite (main_uncaught _ _ _ _ _ E). eexists; reflexivity.
Qed.

(** X13. With both names of the key set to non-empty strings, the request
    carries the value of LIGHTHOUSE_API_KEY, and the first line printed is
    still the deprecation warning for API_KEY. *)
Theorem new_key_sent_old_key_warned argv c k old :
  env !! "LIGHTHOUSE_API_KEY" = Some k ->
  k ≠ "" ->
  env !! "API_KEY" = Some old ->
  old ≠ "" ->
  assoc "X-API-KEY" (headers (request env c)) = Some (VStr k)
  ∧ hd_error (trace (main env fetch argv))
    = Some (Log [Val (VStr "Warning: The environment variable API_KEY is deprecated. Please use LIGHTHOUSE_API_KEY instead.")]).
Proof.
  intros Hk Hk' Hold Hold'.
  apply String.eqb_neq in Hk'. apply String.eqb_neq in Hold'. split.
  - unfold request. destruct (strict_eq_str (runner c) RUNNERS_wpt); simpl;
      unfold API_KEY, js_or, process_env; rewrite Hk; simpl; rewrite Hk'; reflexivity.
  - destruct (main_trace_warning argv) as (rest & ->).
    unfold deprecation_warning, process_env. rewrite Hold. simpl. rewrite Hold'.
    reflexivity.
Qed.

(** X14. The request goes to the host of CI_HOST, or to the hosted
    service when CI_HOST is unset or empty; its path is /run_on_wpt for
    the wpt runner and /run_on_chrome for every other runner value. *)
Theorem endpoint_of_host c :
  endpoint (request env c)
  = match env !! "CI_HOST" with
    | Some h => if String.eqb h "" then "https://lighthouse-ci.appspot.com" else h
    | None => "https://lighthouse-ci.appspot.com"
    end
    +:+ (if strict_eq_str (runner c) RUNNERS_wpt then "/run_on_wpt" else "/run_on_chrome").
Proof.
  unfold request, CI_HOST, js_or, process_env.
  destruct (strict_eq_str (runner c) RUNNERS_wpt), (env !! "CI_HOST") as [h|];
    try reflexivity; simpl; destruct (String.eqb h ""); reflexivity.
Qed.

Lemma join_cons sep x y l : join sep (x :: y :: l) = x +:+ sep +:+ join sep (y :: l).
Proof. reflexivity. Qed.

Lemma config_members_nonempty c : flat_map json_member (config_props c) ≠ [].
Proof.
  unfold config_props. simpl. intros H.
  apply app_eq_nil in H as [_ H]. apply app_eq_nil in H as [_ H].
  destruct (addComment c); discriminate.
Qed.

(** X15. For every runner other than wpt, the body of the request is the
    JSON text of the configuration with the member "format":"json" put
    right after the opening brace. *)
Theorem chrome_body_prefixes_format c :
  strict_eq_str (runner c) RUNNERS_wpt = false ->
  ∃ rest, JSON_stringify (VObj (config_props c)) = VStr ("{" +:+ rest)
    ∧ body (request env c)
      = VStr ("{" +:+ dq +:+ "format" +:+ dq +:+ ":" +:+ dq +:+ "json" +:+ dq +:+ ","
                  +:+ rest).
Proof.
  intros Hrunner. unfold request. rewrite Hrunner. cbn [body].
  rewrite assign_format. unfold JSON_stringify.
  change (SerializeJSONProperty (VObj (("format", VStr "json") :: config_props c)))
    with (Some ("{" +:+ join "," (json_member ("format", VStr "json")
                                   ++ flat_map json_member (config_props c)) +:+ "}")).
  change (SerializeJSONProperty (VObj (config_props c)))
    with (Some ("{" +:+ join "," (flat_map json_member (config_props c)) +:+ "}")).
  pose proof (config_members_nonempty c) as Hnil.
  destruct (flat_map json_member (config_props c)) as [|y l]; [contradiction|].
  exists (join "," (y :: l) +:+ "}"). split; [reflexivity|].
  change (json_member ("format", VStr "json") ++ y :: l)
    with ((dq +:+ "format" +:+ dq +:+ ":" +:+ dq +:+ "json" +:+ dq) :: y :: l).
  rewrite join_cons. reflexivity.
Qed.

(** X16. For the wpt runner, a response whose data is neither null nor
    missing is reported with the text of its target_url, and the run
    ends normally, whenever that value converts to a string; a data
    without target_url is reported with the word undefined. When the
    conversion raises, the failure is printed and the exit code is 1. *)
Theorem wpt_reports_target_url_or_undefined c resp props data :
  runner c = VStr RUNNERS_wpt ->
  fetch (request env c) = Some resp ->
  json resp = Some (VObj props) ->
  assoc "data" props = Some data ->
  data ≠ VNull ->
  data ≠ VUndefined ->
  run env fetch c
  = match ToString (field data "target_url") with
    | Some text =>
        ([Fetch (request env c);
          Log [Val (VStr ("Started Lighthouse run on WebPageTest: " +:+ text))]], Ret tt)
    | None =>
        ([Fetch (request env c); Log [Val (VStr "Lighthouse CI failed"); Err TypeError]],
         Exit 1)
    end
  ∧ (has_prop data "target_url" = false ->
     ToString (field data "target_url") = Some "undefined").
Proof.
  intros Hrunner H1 H2 Hdata Hnull Hundef.
  assert (Hwpt : strict_eq_str (runner c) RUNNERS_wpt = true)
    by (rewrite Hrunner; reflexivity).
  assert (Hd : get_prop (VObj props) "data" = Some data)
    by (simpl; rewrite Hdata; reflexivity).
  assert (Hu : get_prop data "target_url" = Some (field data "target_url")).
  { rewrite get_prop_field. destruct data; try reflexivity; congruence. }
  split.
  - destruct (ToString (field data "target_url")) as [text|] eqn:Ht.
    + eapply run_wpt_target_url; eassumption.
    + eapply run_wpt_raises; try eassumption. right. right. eauto.
  - intros H. rewrite (field_missing _ _ H). reflexivity.
Qed.

(** X17. For the wpt runner, a response whose data is null raises when
    target_url is read: the failure is printed and the exit code is 1. *)
Theorem wpt_null_data_fails c resp props :
  runner c = VStr RUNNERS_wpt ->
  fetch (request env c) = Some resp ->
  json resp = Some (VObj props) ->
  assoc "data" props = Some VNull ->
  run env fetch c
  = ([Fetch (request env c); Log [Val (VStr "Lighthouse CI failed"); Err TypeError]],
     Exit 1).
Proof.
  intros Hrunner H1 H2 Hdata.
  eapply run_wpt_raises; try eassumption; [rewrite Hrunner; reflexivity|].
  right. left. exists VNull. split; [|reflexivity]. simpl. rewrite Hdata. reflexivity.
Qed.

(** X18. Only the first positional argument is read: the arguments after
    it change nothing of what the program does. *)
Theorem later_positionals_are_ignored argv url others :
  argv_positional argv = url :: others ->
  main env fetch argv = main env fetch (with_positional argv [url]).
Proof.
  intros Hpos.
  assert (H : getConfig env argv = getConfig env (with_positional argv [url])).
  { unfold getConfig, with_positional. simpl. rewrite Hpos. reflexivity. }
  unfold main. rewrite H. reflexivity.
Qed.

(** X19. With comments on, a score that converts to a number decides
    nothing in resolution: the same lines are printed and the same exit
    code results for every such value of the score option, whatever
    number it converts to, NaN included. *)
Theorem score_is_free_with_comments argv score :
  argv_comment argv = true ->
  is_Some (Number (argv_score argv)) ->
  is_Some (Number score) ->
  trace (getConfig env (with_score argv score)) = trace (getConfig env argv)
  ∧ exit_code (getConfig env (with_score argv score)) = exit_code (getConfig env argv).
Proof.
  intros Hcomment [n Hn] [n' Hn']. unfold getConfig, with_score, to_number, to_string.
  cbn [argv_positional argv_help argv_comment argv_pr argv_score argv_runner].
  rewrite Hcomment, Hn, Hn'.
  destruct (argv_help argv); [split; reflexivity|].
  destruct (truthy (index (argv_positional argv) 0)); [|split; reflexivity].
  destruct (includes (Object_keys RUNNERS) (js_or (argv_runner argv) (VStr RUNNERS_chrome)));
    destruct (ToString (js_or (argv_runner argv) (VStr RUNNERS_chrome)));
    split; reflexivity.
Qed.
End Further.

(** ** Properties of [Object.assign] on property lists *)

Lemma assoc_set_prop key v props k :
  assoc k (set_prop key v props) = if String.eqb key k then Some v else assoc k props.
Proof.
  induction props as [|[k' w] rest IH]; simpl.
  - reflexivity.
  - destruct (String.eqb_spec k' key) as [-> | Hne]; simpl.
    + destruct (String.eqb key k); reflexivity.
    + rewrite IH. destruct (String.eqb_spec k' k) as [-> | Hne'].
      * apply String.eqb_neq in Hne. rewrite String.eqb_sym, Hne. reflexivity.
      * reflexivity.
Qed.

Lemma assoc_snoc k props key v :
  assoc k (props ++ [(key, v)])
  = match assoc k props with
    | Some w => Some w
    | None => if String.eqb key k then Some v else None
    end.
Proof.
  induction props as [|[k' w] rest IH]; simpl; [reflexivity|].
  destruct (String.eqb k' k); [reflexivity | exact IH].
Qed.

(** X20. Reading a property of [Object.assign(target, source)] gives the
    source's value when the source has the property (its last one, should
    the list repeat a key) and the target's value otherwise. *)
Theorem Object_assign_lookup target source k :
  assoc k (Object_assign target source)
  = match assoc k (rev source) with
    | Some v => Some v
    | None => assoc k target
    end.
Proof.
  unfold Object_assign. revert target.
  induction source as [|[key v] rest IH]; intros target; simpl; [reflexivity|].
  rewrite IH, assoc_snoc, assoc_set_prop.
  destruct (assoc k (rev rest)); [reflexivity|].
  destruct (String.eqb key k); reflexivity.
Qed.

Section FurtherDispatch.
Context {rt : JsRuntime}.
Variable env : gmap string string.
Variable fetch : Request -> option Response.

(** X21. A request is sent exactly when resolution accepts the command
    line (no help flag, a URL, a score that converts to a number and is
    not zero or NaN when comments are off, a known runner) and the gate
    is open: the pr flag is false, or the build is a pull request for
    Travis or for CircleCI. *)
Theorem dispatches_iff argv :
  length (requests (main env fetch argv)) = 1%nat
  ↔ resolves argv = true
    ∧ negb (argv_pr argv)
      || strict_eq_str (process_env env "TRAVIS_EVENT_TYPE") "pull_request"
      || truthy (process_env env "CIRCLE_PULL_REQUEST") = true.
Proof.
  rewrite main_requests.
  destruct (resolves argv) eqn:Hres.
  - destruct (getConfig_resolved env argv Hres) as (c & text & Hc & _).
    assert (Hof : config_of (getConfig env argv) = Some c)
      by (unfold config_of; rewrite Hc; reflexivity).
    rewrite Hof.
    assert (Hgate : truthy (runLighthouse c)
                    = negb (argv_pr argv)
                      || strict_eq_str (process_env env "TRAVIS_EVENT_TYPE") "pull_request"
                      || truthy (process_env env "CIRCLE_PULL_REQUEST")).
    { rewrite (getConfig_value env _ _ Hof). simpl.
      destruct (argv_pr argv); simpl; [|reflexivity].
      destruct (strict_eq_str (process_env env "TRAVIS_EVENT_TYPE") "pull_request");
        reflexivity. }
    rewrite <- Hgate. destruct (truthy (runLighthouse c)); simpl.
    + split; auto.
    + split; [discriminate | intros [_ H]; discriminate].
  - assert (Hof : config_of (getConfig env argv) = None).
    { destruct (config_of (getConfig env argv)) as [c|] eqn:E; [|reflexivity].
      apply config_of_ret, getConfig_ret_resolves in E. congruence. }
    rewrite Hof. simpl. split; [discriminate | intros [H _]; discriminate].
Qed.
End FurtherDispatch.

(** ** The further properties on the example inputs *)

Section FurtherInstances.
Import Examples.

Lemma help_prints_usage_only_witness :
  argv_help argv_help_url = true
  ∧ main env_travis fetch_down argv_help_url = ([Log [Val (VStr usage)]], Exit 1)
  ∧ requests (main env_travis fetch_down argv_help_url) = []
  ∧ exit_code (main env_travis fetch_down argv_help_url) = 1.
Proof.
  split; [reflexivity|].
  apply (help_prints_usage_only env_travis fetch_down argv_help_url). reflexivity.
Defined.

Lemma usage_errors_ignore_environment_witness :
  resolves argv_runner_foo = false
  ∧ getConfig ∅ argv_runner_foo = getConfig env_both argv_runner_foo
  ∧ (length (trace (getConfig ∅ argv_runner_foo)) <= 2)%nat.
Proof.
  split; [reflexivity|].
  apply (usage_errors_ignore_environment ∅ env_both argv_runner_foo). reflexivity.
Defined.

Lemma gate_open_iff_witness :
  config_of (getConfig env_travis argv_url) = Some config_travis
  ∧ truthy (runLighthouse config_travis)
    = negb (argv_pr argv_url)
      || strict_eq_str (process_env env_travis "TRAVIS_EVENT_TYPE") "pull_request"
      || truthy (process_env env_travis "CIRCLE_PULL_REQUEST").
Proof.
  split; [reflexivity|].
  apply (gate_open_iff env_travis argv_url config_travis). reflexivity.
Defined.

Lemma circle_gate_is_the_pull_request_url_witness :
  config_of (getConfig env_circle argv_url)
  = Some (resolved_or config_chrome env_circle argv_url)
  ∧ argv_pr argv_url = true
  ∧ env_circle !! "TRAVIS_EVENT_TYPE" = None
  ∧ env_circle !! "CIRCLE_PULL_REQUEST"
    = Some "https://github.com/ebidel/lighthouse-ci/pull/34"
  ∧ runLighthouse (resolved_or config_chrome env_circle argv_url)
    = VStr "https://github.com/ebidel/lighthouse-ci/pull/34"
  ∧ requests (main env_circle (fetch_score 95) argv_url)
    = [request env_circle (resolved_or config_chrome env_circle argv_url)].
Proof.
  repeat (split; [reflexivity|]).
  apply (circle_gate_is_the_pull_request_url env_circle (fetch_score 95) argv_url
           (resolved_or config_chrome env_circle argv_url)
           "https://github.com/ebidel/lighthouse-ci/pull/34");
    first [reflexivity | discriminate].
Defined.

Lemma pr_identity_without_circle_witness :
  config_of (getConfig env_travis argv_url) = Some config_travis
  ∧ truthy (process_env env_travis "CIRCLECI") = false
  ∧ pr config_travis = {| number := VNum (number_of_Z false 12); sha := VStr "abc123" |}.
Proof.
  split; [reflexivity|]. split; [reflexivity|].
  apply (pr_identity_without_circle env_travis argv_url config_travis); reflexivity.
Defined.

Lemma pr_number_without_digits_witness :
  env_travis_push !! "TRAVIS_PULL_REQUEST" = Some "false"
  ∧ starts_with_digit "false" = false
  ∧ config_of (getConfig env_travis_push argv_all_builds)
    = Some (resolved_or config_chrome env_travis_push argv_all_builds)
  ∧ number (pr (resolved_or config_chrome env_travis_push argv_all_builds)) = VNum NaN
  ∧ SerializeJSONProperty (number (pr (resolved_or config_chrome env_travis_push
                                         argv_all_builds)))
    = Some "null".
Proof.
  split; [reflexivity|]. split; [reflexivity|]. split; [reflexivity|].
  apply (pr_number_without_digits env_travis_push argv_all_builds
           (resolved_or config_chrome env_travis_push argv_all_builds));
    try reflexivity.
  intros s Hs. assert (s = "false") as -> by (vm_compute in Hs; congruence).
  reflexivity.
Defined.

Lemma repo_from_travis_slug_witness :
  config_of (getConfig env_both argv_url) = Some (resolved_or config_chrome env_both argv_url)
  ∧ env_both !! "TRAVIS_PULL_REQUEST_SLUG" = Some "ebidel/lighthouse-ci"
  ∧ env_both !! "CIRCLE_PULL_REQUEST"
    = Some "https://github.com/ebidel/lighthouse-ci/pull/34"
  ∧ owner (repo (resolved_or config_chrome env_both argv_url)) = VStr "ebidel"
  ∧ name (repo (resolved_or config_chrome env_both argv_url)) = VStr "lighthouse-ci".
Proof.
  repeat (split; [reflexivity|]).
  apply (repo_from_travis_slug env_both argv_url
           (resolved_or config_chrome env_both argv_url) "ebidel" "lighthouse-ci");
    reflexivity.
Defined.

Lemma repo_from_pull_request_url_witness :
  config_of (getConfig env_circle argv_url)
  = Some (resolved_or config_chrome env_circle argv_url)
  ∧ truthy (process_env env_circle "TRAVIS_PULL_REQUEST_SLUG") = false
  ∧ owner (repo (resolved_or config_chrome env_circle argv_url)) = VStr "https:"
  ∧ name (repo (resolved_or config_chrome env_circle argv_url)) = VStr "".
Proof.
  repeat (split; [reflexivity|]).
  apply (repo_from_pull_request_url env_circle argv_url
           (resolved_or config_chrome env_circle argv_url)
           "https" "github.com/ebidel/lighthouse-ci/pull/34");
    reflexivity.
Defined.

Lemma repo_without_slash_witness :
  config_of (getConfig env_bare_slug argv_url)
  = Some (resolved_or config_chrome env_bare_slug argv_url)
  ∧ owner (repo (resolved_or config_chrome env_bare_slug argv_url)) = VStr "lighthouse-ci"
  ∧ name (repo (resolved_or config_chrome env_bare_slug argv_url)) = VUndefined.
Proof.
  split; [reflexivity|].
  apply (proj1 (repo_without_slash env_bare_slug argv_url
                  (resolved_or config_chrome env_bare_slug argv_url) eq_refl)
           "lighthouse-ci");
    first [reflexivity | discriminate].
Defined.

Lemma new_key_sent_old_key_warned_witness :
  env_legacy_key !! "LIGHTHOUSE_API_KEY" = Some "new"
  ∧ env_legacy_key !! "API_KEY" = Some "old"
  ∧ assoc "X-API-KEY" (headers (request env_legacy_key config_chrome)) = Some (VStr "new")
  ∧ hd_error (trace (main env_legacy_key fetch_down argv_url))
    = Some (Log [Val (VStr "Warning: The environment variable API_KEY is deprecated. Please use LIGHTHOUSE_API_KEY instead.")]).
Proof.
  split; [reflexivity|]. split; [reflexivity|].
  apply (new_key_sent_old_key_warned env_legacy_key fetch_down argv_url config_chrome
           "new" "old");
    first [reflexivity | discriminate].
Defined.

Lemma chrome_body_prefixes_format_witness :
  strict_eq_str (runner config_chrome) RUNNERS_wpt = false
  ∧ ∃ rest, JSON_stringify (VObj (config_props config_chrome)) = VStr ("{" +:+ rest)
      ∧ body (request ∅ config_chrome)
        = VStr ("{" +:+ dq +:+ "format" +:+ dq +:+ ":" +:+ dq +:+ "json" +:+ dq +:+ ","
                    +:+ rest).
Proof.
  split; [reflexivity|].
  apply (chrome_body_prefixes_format ∅ config_chrome). reflexivity.
Defined.

Lemma wpt_reports_target_url_or_undefined_witness :
  runner config_wpt = VStr RUNNERS_wpt
  ∧ has_prop (VObj []) "target_url" = false
  ∧ run ∅ fetch_data_empty config_wpt
    = ([Fetch (request ∅ config_wpt);
        Log [Val (VStr "Started Lighthouse run on WebPageTest: undefined")]], Ret tt)
  ∧ run ∅ fetch_target_url_object config_wpt
    = ([Fetch (request ∅ config_wpt);
        Log [Val (VStr "Lighthouse CI failed"); Err TypeError]], Exit 1).
Proof.
  split; [reflexivity|]. split; [reflexivity|]. split.
  - apply (proj1 (wpt_reports_target_url_or_undefined ∅ fetch_data_empty config_wpt
                    {| json := Some (VObj [("data", VObj [])]) |} [("data", VObj [])]
                    (VObj []) eq_refl eq_refl eq_refl eq_refl
                    ltac:(discriminate) ltac:(discriminate))).
  - apply (proj1 (wpt_reports_target_url_or_undefined ∅ fetch_target_url_object config_wpt
                    _ _ (VObj [("target_url",
                                VObj [("toString", VNum (number_of_Z false 1))])])
                    eq_refl eq_refl eq_refl eq_refl
                    ltac:(discriminate) ltac:(discriminate))).
Defined.

Lemma wpt_null_data_fails_witness :
  runner config_wpt = VStr RUNNERS_wpt
  ∧ run ∅ fetch_data_null config_wpt
    = ([Fetch (request ∅ config_wpt);
        Log [Val (VStr "Lighthouse CI failed"); Err TypeError]], Exit 1).
Proof.
  split; [reflexivity|].
  apply (wpt_null_data_fails ∅ fetch_data_null config_wpt
           {| json := Some (VObj [("data", VNull)]) |} [("data", VNull)]);
    reflexivity.
Defined.

Lemma later_positionals_are_ignored_witness :
  argv_positional argv_two_urls = [VStr "https://example.com"; VStr "https://example.org"]
  ∧ main env_travis (fetch_score 95) argv_two_urls
    = main env_travis (fetch_score 95)
        (with_positional argv_two_urls [VStr "https://example.com"]).
Proof.
  split; [reflexivity|].
  apply (later_positionals_are_ignored env_travis (fetch_score 95) argv_two_urls
           (VStr "https://example.com") [VStr "https://example.org"]).
  reflexivity.
Defined.

Lemma score_is_free_with_comments_witness :
  argv_comment argv_url = true
  ∧ Number (argv_score argv_url) = Some NaN
  ∧ Number (VStr "ninety") = Some NaN
  ∧ trace (getConfig env_travis (with_score argv_url (VStr "ninety")))
    = trace (getConfig env_travis argv_url)
  ∧ exit_code (getConfig env_travis (with_score argv_url (VStr "ninety")))
    = exit_code (getConfig env_travis argv_url).
Proof.
  split; [reflexivity|]. split; [reflexivity|]. split; [reflexivity|].
  apply (score_is_free_with_comments env_travis argv_url (VStr "ninety"));
    [reflexivity | exists NaN; reflexivity | exists NaN; reflexivity].
Defined.

(** X21 on [--pr=false --score.toString=1 https://example.com]: the gate
    is open, the score does not convert, and nothing is sent. *)
Lemma dispatches_iff_witness :
  resolves argv_score_object_all_builds = false
  ∧ length (requests (main ∅ (fetch_score 95) argv_score_object_all_builds)) ≠ 1%nat
  ∧ length (requests (main env_travis (fetch_score 95) argv_url)) = 1%nat.
Proof.
  split; [reflexivity|]. split.
  - intros H.
    apply (proj1 (dispatches_iff ∅ (fetch_score 95) argv_score_object_all_builds)) in H
      as [H _].
    discriminate H.
  - apply (proj2 (dispatches_iff env_travis (fetch_score 95) argv_url)).
    split; reflexivity.
Defined.
End FurtherInstances.
